(** * Carbon-footprint calculator (staticfiles/js/carbon-calculator.js)

    A shallow embedding of the [CarbonCalculator] class: the emission
    estimate ([calculateEmissions] and its four helpers), the level
    classification ([getEmissionLevel]), the suggestion list
    ([generateSuggestions]) and the two persistence methods
    ([saveToServer], [saveToLocalStorage]).

    JavaScript numbers are IEEE-754 binary64 values, so they are modelled by
    Rocq's primitive floats: [*], [+], [/] and [<] below are the very
    operations the script performs, rounding, NaN and infinities included. *)

From Stdlib Require Import Floats ZArith Lia.
From stdpp Require Import gmap strings list.

Set Warnings "-inexact-float,-register-all".

(** ** The fragment of JavaScript the calculator relies on *)

Module JS.
Local Open Scope float_scope.

(** ToBoolean on a Number: [0], [-0] and [NaN] are falsy. *)
Definition truthy (x : float) : bool := negb ((x =? 0) || is_nan x).

(** A property read yields a Number or [undefined]; [undefined] is [None]. *)
Definition to_number (v : option float) : float :=
  match v with Some x => x | None => nan end.

(** [a || b] where [a] is a property read or a Number and [b] a Number. *)
Definition or (a : option float) (b : float) : float :=
  match a with
  | Some x => if truthy x then x else b
  | None => b
  end.

(** ToPropertyKey: an absent form entry reads as [undefined], which indexes
    an object under the name ["undefined"]. *)
Definition property_key (k : option string) : string :=
  default "undefined"%string k.

(** [obj[k]] on an object literal whose own properties are [obj]: a name
    that is no own property reads as [undefined].  The members that every
    object inherits from [Object.prototype] (["constructor"], ["toString"]
    and the like) are not modelled. *)
Definition get (obj : gmap string float) (k : option string) : option float :=
  obj !! property_key k.

(** A Number that is neither NaN nor an infinity. *)
Definition finite (x : float) : bool := negb (is_nan x || is_infinity x).

(** [a === b] on Numbers. *)
Definition strict_eq (a b : float) : bool := (a =? b).
End JS.

Notation "a '||ⱼ' b" := (JS.or a b) (at level 50, left associativity).

(** ** JSON documents and the browser's key-value store *)

Module JSON.
Local Open Scope float_scope.

(** A JavaScript value of the shape the history holds.  In memory a
    [JNumber] may be any Number, NaN and the infinities included. *)
Inductive value :=
| JNull
| JNumber (x : float)
| JString (s : string)
| JArray (items : list value)
| JObject (members : list (string * value)).

(** What [JSON.stringify] writes for a Number and [JSON.parse] reads back:
    [null] for NaN and the infinities, [0] for either zero, and for any
    other finite Number digits that denote that very Number. *)
Definition serializeNumber (x : float) : value :=
  if JS.finite x then (if x =? 0 then JNumber 0 else JNumber x) else JNull.

(** The document that the text written by [JSON.stringify v] denotes. *)
Fixpoint serialize (v : value) : value :=
  match v with
  | JNull => JNull
  | JNumber x => serializeNumber x
  | JString s => JString s
  | JArray items => JArray (serialize <$> items)
  | JObject members =>
      JObject ((fun kv => let '(k, w) := kv in (k, serialize w)) <$> members)
  end.

(** A stored string: a JSON text, kept as the document it denotes, or a
    string that is no JSON text. *)
Inductive text :=
| Document (doc : value)
| Malformed (s : string).

Definition stringify (v : value) : text := Document (serialize v).

(** [JSON.parse]: [None] stands for the SyntaxError it throws. *)
Definition parse (t : text) : option value :=
  match t with
  | Document doc => Some doc
  | Malformed _ => None
  end.

(** [v[k]] on a parsed document, whose member names are distinct. *)
Definition member (k : string) (v : value) : option value :=
  match v with
  | JObject members => snd <$> List.find (fun kv => String.eqb (fst kv) k) members
  | _ => None
  end.

(** ToBoolean on a string: only the empty string is falsy. *)
Definition truthy (t : text) : bool :=
  match t with
  | Malformed s => negb (String.eqb s "")
  | Document _ => true
  end.

(** [item || fallback] where [item] is what [getItem] returns: a string, or
    [null] ([None]) when the key is not stored. *)
Definition or (item : option text) (fallback : text) : text :=
  match item with
  | Some t => if truthy t then t else fallback
  | None => fallback
  end.

(** The text ['[]']. *)
Definition emptyArray : text := Document (JArray []).
End JSON.

(** ** The calculator *)

Module CarbonCalculator.
Local Open Scope string_scope.
Local Open Scope float_scope.

(** [this.emissionFactors], set in the constructor. *)
Module emissionFactors.
Definition transport : gmap string float :=
  {[ "petrol" := 0.12; "diesel" := 0.13; "hybrid" := 0.08;
     "electric" := 0.05; "none" := 0 ]}.
Definition electricity : float := 0.5.
Definition diet : gmap string float :=
  {[ "vegetarian" := 1000; "meat_light" := 1500;
     "meat_medium" := 2000; "meat_heavy" := 3000 ]}.
Definition waste : float := 0.5.
Definition flights : float := 0.2.
Definition public_transport : float := 0.05.
End emissionFactors.

(** The entries of [data = Object.fromEntries(formData.entries())] as
    [calculateEmissions] reads them.  The three select values are strings
    ([None] when the form has no such entry).  For the six numeric inputs
    the record holds the Number that the built-in [parseFloat]
    (respectively [parseInt] for [household_size]) returns on the entry:
    NaN when the entry is absent or does not start with a numeric
    literal. *)
Record FormEntries := {
  car_type : option string;
  car_km : float;
  public_transport_km : float;
  flights_hours : float;
  electricity_kwh : float;
  renewable_energy : option string;
  diet_type : option string;
  waste_kg : float;
  household_size : float
}.

(** The entries with one of them replaced. *)
Definition withCarType (v : option string) (data : FormEntries) :=
  {| car_type := v; car_km := car_km data;
     public_transport_km := public_transport_km data;
     flights_hours := flights_hours data;
     electricity_kwh := electricity_kwh data;
     renewable_energy := renewable_energy data;
     diet_type := diet_type data; waste_kg := waste_kg data;
     household_size := household_size data |}.

Definition withCarKm (v : float) (data : FormEntries) :=
  {| car_type := car_type data; car_km := v;
     public_transport_km := public_transport_km data;
     flights_hours := flights_hours data;
     electricity_kwh := electricity_kwh data;
     renewable_energy := renewable_energy data;
     diet_type := diet_type data; waste_kg := waste_kg data;
     household_size := household_size data |}.

Definition withElectricityKwh (v : float) (data : FormEntries) :=
  {| car_type := car_type data; car_km := car_km data;
     public_transport_km := public_transport_km data;
     flights_hours := flights_hours data;
     electricity_kwh := v;
     renewable_energy := renewable_energy data;
     diet_type := diet_type data; waste_kg := waste_kg data;
     household_size := household_size data |}.

Definition withWasteKg (v : float) (data : FormEntries) :=
  {| car_type := car_type data; car_km := car_km data;
     public_transport_km := public_transport_km data;
     flights_hours := flights_hours data;
     electricity_kwh := electricity_kwh data;
     renewable_energy := renewable_energy data;
     diet_type := diet_type data; waste_kg := v;
     household_size := household_size data |}.

Definition withHouseholdSize (v : float) (data : FormEntries) :=
  {| car_type := car_type data; car_km := car_km data;
     public_transport_km := public_transport_km data;
     flights_hours := flights_hours data;
     electricity_kwh := electricity_kwh data;
     renewable_energy := renewable_energy data;
     diet_type := diet_type data; waste_kg := waste_kg data;
     household_size := v |}.

Record EmissionLevel := {
  level : string;
  label : string;
  color : string
}.

Record Emissions := {
  transport : float;
  electricity : float;
  diet : float;
  waste : float;
  total : float;
  perCapita : float;
  householdSize : float;
  emissionLevel : EmissionLevel
}.

Definition calculateTransportEmissions
    (carType : option string) (carKm publicTransportKm flightsHours : float) : float :=
  let carEmissions :=
    carKm * 52 * JS.to_number (JS.get emissionFactors.transport carType) in
  let publicTransportEmissions :=
    publicTransportKm * 52 * emissionFactors.public_transport in
  let flightKm := flightsHours * 800 in
  let flightEmissions := flightKm * emissionFactors.flights in
  carEmissions + publicTransportEmissions + flightEmissions.

Definition renewableFactors : gmap string float :=
  {[ "none" := 1.0; "some" := 0.7; "most" := 0.3; "all" := 0.1 ]}.

Definition calculateElectricityEmissions
    (electricityKwh : float) (renewableLevel : option string)
    (householdSize : float) : float :=
  let factor := JS.get renewableFactors renewableLevel ||ⱼ 1.0 in
  (electricityKwh * 12 * emissionFactors.electricity * factor) / householdSize.

Definition calculateDietEmissions (dietType : option string) : float :=
  JS.get emissionFactors.diet dietType
    ||ⱼ JS.to_number (JS.get emissionFactors.diet (Some "meat_medium")).

Definition calculateWasteEmissions (wasteKg : float) : float :=
  wasteKg * 52 * emissionFactors.waste.

Definition getEmissionLevel (perCapitaEmissions : float) : EmissionLevel :=
  if perCapitaEmissions <? 2000 then
    {| level := "low"; label := "Low"; color := "success" |}
  else if perCapitaEmissions <? 5000 then
    {| level := "moderate"; label := "Moderate"; color := "warning" |}
  else if perCapitaEmissions <? 10000 then
    {| level := "high"; label := "High"; color := "danger" |}
  else
    {| level := "very_high"; label := "Very High"; color := "danger" |}.

(** The numeric constants of [calculateEmissions] (lines 156-161):
    [parseFloat(data.x) || 0] and [parseInt(data.household_size) || 1]. *)
Definition carKm (data : FormEntries) : float := Some (car_km data) ||ⱼ 0.
Definition publicTransportKm (data : FormEntries) : float :=
  Some (public_transport_km data) ||ⱼ 0.
Definition electricityKwh (data : FormEntries) : float :=
  Some (electricity_kwh data) ||ⱼ 0.
Definition wasteKg (data : FormEntries) : float := Some (waste_kg data) ||ⱼ 0.
Definition flightsHours (data : FormEntries) : float :=
  Some (flights_hours data) ||ⱼ 0.
Definition effectiveHouseholdSize (data : FormEntries) : float :=
  Some (household_size data) ||ⱼ 1.

(** [calculateEmissions]; [form] is [this.form], [None] when the page has
    no calculator form. *)
Definition calculateEmissions (form : option FormEntries) : Emissions :=
  match form with
  | None =>
      {| transport := 0; electricity := 0; diet := 0; waste := 0;
         total := 0; perCapita := 0; householdSize := 1;
         emissionLevel :=
           {| level := "low"; label := "Low"; color := "success" |} |}
  | Some data =>
      let householdSize := effectiveHouseholdSize data in
      let transportEmissions :=
        calculateTransportEmissions
          (car_type data) (carKm data) (publicTransportKm data)
          (flightsHours data) in
      let electricityEmissions :=
        calculateElectricityEmissions
          (electricityKwh data) (renewable_energy data) householdSize in
      let dietEmissions := calculateDietEmissions (diet_type data) in
      let wasteEmissions := calculateWasteEmissions (wasteKg data) in
      let totalEmissions :=
        transportEmissions + electricityEmissions + dietEmissions
        + wasteEmissions in
      let perCapitaEmissions := totalEmissions / householdSize in
      {| transport := transportEmissions;
         electricity := electricityEmissions;
         diet := dietEmissions;
         waste := wasteEmissions;
         total := totalEmissions;
         perCapita := perCapitaEmissions;
         householdSize := householdSize;
         emissionLevel := getEmissionLevel perCapitaEmissions |}
  end.

(** *** Suggestions *)

Record Suggestion := {
  category : string;
  title : string;
  description : string;
  impact : string;
  savings : string
}.

Definition reduceCarUsage : Suggestion :=
  {| category := "Transport";
     title := "Reduce Car Usage";
     description :=
       "Consider carpooling, using public transport, or cycling for short trips.";
     impact := "High";
     savings := "Up to 1000 kg CO₂e/year" |}.

Definition switchToRenewable : Suggestion :=
  {| category := "Electricity";
     title := "Switch to Renewable Energy";
     description :=
       "Install solar panels or switch to a green energy provider.";
     impact := "Medium";
     savings := "Up to 750 kg CO₂e/year" |}.

Definition reduceMeat : Suggestion :=
  {| category := "Diet";
     title := "Reduce Meat Consumption";
     description := "Try vegetarian meals 2-3 times per week.";
     impact := "High";
     savings := "Up to 1000 kg CO₂e/year" |}.

Definition plantTrees : Suggestion :=
  {| category := "General";
     title := "Plant Trees";
     description := "Each tree absorbs about 21 kg of CO₂ per year.";
     impact := "Low";
     savings := "21 kg CO₂e/year per tree" |}.

(** [suggestions.push(s)] on the local array. *)
Definition push (suggestions : list Suggestion) (s : Suggestion) :=
  (suggestions ++ [s])%list.

(** [a > b] is [b < a]. *)
Definition generateSuggestions (emissions : Emissions) : list Suggestion :=
  let suggestions := [] in
  let suggestions :=
    if 2000 <? transport emissions
    then push suggestions reduceCarUsage else suggestions in
  let suggestions :=
    if 1500 <? electricity emissions
    then push suggestions switchToRenewable else suggestions in
  let suggestions :=
    if 2000 <? diet emissions
    then push suggestions reduceMeat else suggestions in
  push suggestions plantTrees.

(** *** Persistence *)

(** What the page can observe of one run, in order. *)
Inductive Event :=
| Fetched (url : string) (body : JSON.text)
| Stored (key : string) (item : JSON.text)
| SuccessAlert (message : string)
| ErrorAlert (message : string).

Record World := {
  localStorage : gmap string JSON.text;
  events : list Event
}.

(** [body] is what [response.json()] resolves to, [None] when the body is
    no JSON text and the promise rejects. *)
Record Response := {
  ok : bool;
  status : Z;
  body : option JSON.value
}.

Inductive FetchOutcome :=
| NetworkError
| Resolved (response : Response).

(** What the browser and the server decide during one run. *)
Record Env := {
  now : float;
  isoNow : string;
  storageAvailable : bool;
  quotaLeft : bool;
  network : FetchOutcome
}.

(** Statements that read the environment, change the world and may throw
    ([None]). *)
Definition M (A : Type) : Type := Env -> World -> World * option A.

Definition ret {A} (a : A) : M A := fun _ w => (w, Some a).
Definition throw {A} : M A := fun _ w => (w, None).
Definition bind {A B} (m : M A) (k : A -> M B) : M B :=
  fun env w =>
    match m env w with
    | (w', Some a) => k a env w'
    | (w', None) => (w', None)
    end.
Definition try_catch {A} (block handler : M A) : M A :=
  fun env w =>
    match block env w with
    | (w', None) => handler env w'
    | done => done
    end.
Definition ask : M Env := fun env w => (w, Some env).
Definition emit (e : Event) : M unit :=
  fun _ w =>
    ({| localStorage := localStorage w; events := (events w ++ [e])%list |},
     Some tt).

#[local] Instance M_ret : MRet M := @ret.
#[local] Instance M_bind : MBind M := fun A B k m => bind m k.

Definition getItem (key : string) : M (option JSON.text) :=
  fun env w =>
    if storageAvailable env then (w, Some (localStorage w !! key))
    else (w, None).

Definition setItem (key : string) (item : JSON.text) : M unit :=
  fun env w =>
    if storageAvailable env && quotaLeft env then
      ({| localStorage := <[key := item]> (localStorage w);
          events := (events w ++ [Stored key item])%list |}, Some tt)
    else (w, None).

(** [JSON.parse(text)] as a statement: it throws a SyntaxError on a string
    that is no JSON text. *)
Definition parse (text : JSON.text) : M JSON.value :=
  match JSON.parse text with
  | Some v => ret v
  | None => throw
  end.

(** [calcHistory.unshift(entry)]: a TypeError unless [calcHistory] is an
    array. *)
Definition unshift (calcHistory entry : JSON.value) : M (list JSON.value) :=
  match calcHistory with
  | JSON.JArray items => ret (entry :: items)
  | _ => throw
  end.

(** [array.slice(start, end)] for indices that are not negative. *)
Definition slice {A} (start end_ : nat) (array : list A) : list A :=
  take (end_ - start) (drop start array).

Definition showSuccessAlert (message : string) : M unit :=
  emit (SuccessAlert message).
Definition showErrorAlert (message : string) : M unit :=
  emit (ErrorAlert message).

(** The object literal that [saveToLocalStorage] puts in front of the
    history. *)
Definition historyEntry (id : float) (date : string) (emissions : Emissions)
    : JSON.value :=
  JSON.JObject
    [ ("id", JSON.JNumber id);
      ("date", JSON.JString date);
      ("total", JSON.JNumber (total emissions));
      ("perCapita", JSON.JNumber (perCapita emissions));
      ("level", JSON.JString (label (emissionLevel emissions)));
      ("color", JSON.JString (color (emissionLevel emissions)));
      ("breakdown",
        JSON.JObject
          [ ("transport", JSON.JNumber (transport emissions));
            ("electricity", JSON.JNumber (electricity emissions));
            ("diet", JSON.JNumber (diet emissions));
            ("waste", JSON.JNumber (waste emissions)) ]);
      ("householdSize", JSON.JNumber (householdSize emissions)) ].

Definition saveToLocalStorage (emissions : Emissions) : M unit :=
  try_catch
    (item ← getItem "carbonHistory";
     parsed ← parse (JSON.or item JSON.emptyArray);
     env ← ask;
     calcHistory ←
       unshift parsed (historyEntry (now env) (isoNow env) emissions);
     let limitedHistory := slice 0 10 calcHistory in
     setItem "carbonHistory" (JSON.stringify (JSON.JArray limitedHistory));;
     showSuccessAlert "Calculation saved to your browser!")
    (showErrorAlert "Failed to save calculation. Please try again.").

(** [new FormData(this.form)] throws a TypeError on a null form. *)
Definition newFormData (form : option FormEntries) : M FormEntries :=
  match form with
  | Some data => ret data
  | None => throw
  end.

(** The five [calculated_*] members that [saveToServer] adds to the form
    entries before posting them; the entries themselves travel unchanged
    and are left out of the modelled body. *)
Definition requestBody (emissions : Emissions) : JSON.value :=
  JSON.JObject
    [ ("calculated_total", JSON.JNumber (total emissions));
      ("calculated_transport", JSON.JNumber (transport emissions));
      ("calculated_electricity", JSON.JNumber (electricity emissions));
      ("calculated_diet", JSON.JNumber (diet emissions));
      ("calculated_waste", JSON.JNumber (waste emissions)) ].

(** [await fetch(url, {method: 'POST', ...})]: one request leaves; the
    promise rejects on a network error. *)
Definition fetch (url : string) (body : JSON.text) : M Response :=
  emit (Fetched url body);;
  env ← ask;
  match network env with
  | Resolved response => ret response
  | NetworkError => throw
  end.

(** [await response.json()]. *)
Definition response_json (response : Response) : M JSON.value :=
  match body response with
  | Some v => ret v
  | None => throw
  end.

Definition saveToServer (form : option FormEntries) (emissions : Emissions)
    : M unit :=
  try_catch
    (_data ← newFormData form;
     response ←
       fetch "/api/save-carbon-footprint/"
         (JSON.stringify (requestBody emissions));
     if ok response then
       _result ← response_json response;
       showSuccessAlert "Calculation saved to your account!"
     else
       saveToLocalStorage emissions)
    (saveToLocalStorage emissions).

(** The world a statement leaves behind. *)
Definition run {A} (m : M A) (env : Env) (w : World) : World :=
  fst (m env w).

(** *** What the properties below observe *)

(** The array that a local save finds under ['carbonHistory']: the one
    stored there, or the empty one when nothing or the empty string is
    stored. *)
Definition holdsHistory (w : World) (calcHistory : list JSON.value) : Prop :=
  localStorage w !! "carbonHistory"
    = Some (JSON.Document (JSON.JArray calcHistory))
  \/ (localStorage w !! "carbonHistory" = None /\ calcHistory = [])
  \/ (localStorage w !! "carbonHistory" = Some (JSON.Malformed "")
      /\ calcHistory = []).

(** The remote save went through: the response is OK and its body reads
    as JSON. *)
Definition acknowledged (env : Env) : bool :=
  match network env with
  | Resolved response =>
      ok response && bool_decide (is_Some (body response))
  | NetworkError => false
  end.

(** The request that [saveToServer] sends. *)
Definition saveRequest (emissions : Emissions) : Event :=
  Fetched "/api/save-carbon-footprint/"
    (JSON.stringify (requestBody emissions)).

(** The world with one more event observed. *)
Definition after (w : World) (e : Event) : World :=
  {| localStorage := localStorage w; events := (events w ++ [e])%list |}.

(** What [JSON.parse] reads back from the text [JSON.stringify] writes for
    a history entry, and the Numbers found in it. *)
Definition readBack (entry : JSON.value) : option JSON.value :=
  JSON.parse (JSON.stringify entry).

Definition readTotal (doc : JSON.value) : option JSON.value :=
  JSON.member "total" doc.

Definition readCategory (name : string) (doc : JSON.value) : option JSON.value :=
  JSON.member "breakdown" doc ≫= JSON.member name.

(** The value read back is the Number [x]: it is [===] to [x], and the
    very same Number unless [x] is a zero (a negative zero reads back as
    [0]). *)
Definition readsBackAs (x : float) (v : option JSON.value) : Prop :=
  exists y : float,
    v = Some (JSON.JNumber y)
    /\ JS.strict_eq x y = true
    /\ ((x =? 0) = false -> y = x).

End CarbonCalculator.

(** ** The category formulas as the specification words them

    Section 4.1 of the specification gives each category as a formula over
    a typed input; these definitions follow its words and are compared with
    the code below. *)

Module Spec.
Local Open Scope string_scope.
Local Open Scope float_scope.

Inductive TransportMode := Petrol | Diesel | Hybrid | Electric | NoCar.
Inductive RenewableShare :=
  NoRenewables | SomeRenewables | MostRenewables | AllRenewables.
Inductive DietType := Vegetarian | MeatLight | MeatMedium | MeatHeavy.

Definition modeName (m : TransportMode) : string :=
  match m with
  | Petrol => "petrol" | Diesel => "diesel" | Hybrid => "hybrid"
  | Electric => "electric" | NoCar => "none"
  end.

Definition shareName (r : RenewableShare) : string :=
  match r with
  | NoRenewables => "none" | SomeRenewables => "some"
  | MostRenewables => "most" | AllRenewables => "all"
  end.

Definition dietName (t : DietType) : string :=
  match t with
  | Vegetarian => "vegetarian" | MeatLight => "meat_light"
  | MeatMedium => "meat_medium" | MeatHeavy => "meat_heavy"
  end.

Definition transportFactor (m : TransportMode) : float :=
  match m with
  | Petrol => 0.12 | Diesel => 0.13 | Hybrid => 0.08
  | Electric => 0.05 | NoCar => 0
  end.

Definition renewableFactor (r : RenewableShare) : float :=
  match r with
  | NoRenewables => 1.0 | SomeRenewables => 0.7
  | MostRenewables => 0.3 | AllRenewables => 0.1
  end.

Definition transport (m : TransportMode)
    (carKmPerWeek publicTransportKmPerWeek flightHoursPerYear : float) : float :=
  carKmPerWeek * 52 * transportFactor m
  + publicTransportKmPerWeek * 52 * 0.05
  + flightHoursPerYear * 800 * 0.2.

Definition electricity (r : RenewableShare)
    (electricityKwhPerMonth householdSize : float) : float :=
  (electricityKwhPerMonth * 12 * 0.5 * renewableFactor r) / householdSize.

Definition diet (t : DietType) : float :=
  match t with
  | Vegetarian => 1000 | MeatLight => 1500
  | MeatMedium => 2000 | MeatHeavy => 3000
  end.

Definition waste (wasteKgPerWeek : float) : float :=
  wasteKgPerWeek * 52 * 0.5.
End Spec.

(** ** Sample forms, environments and worlds *)

Module Samples.
Import CarbonCalculator.
Local Open Scope string_scope.
Local Open Scope float_scope.

(** The worked example of the specification (section 8). *)
Definition worked : FormEntries :=
  {| car_type := Some "petrol"; car_km := 20; public_transport_km := 0;
     flights_hours := 0; electricity_kwh := 200;
     renewable_energy := Some "none"; diet_type := Some "meat_medium";
     waste_kg := 10; household_size := 2 |}.

(** The select for the car type left on an empty placeholder option. *)
Definition noCarType : FormEntries := withCarType (Some "") worked.

(** A household size entered as [-3]. *)
Definition negativeHousehold : FormEntries := withHouseholdSize (-3) worked.

(** [car_km] entered as [-100], and [waste_kg] as [-5]. *)
Definition negativeCarKm : FormEntries := withCarKm (-100) worked.
Definition negativeWaste : FormEntries := withWasteKg (-5) worked.

(** [electricity_kwh] entered as [1e308]: the yearly product overflows. *)
Definition hugeElectricity : FormEntries := withElectricityKwh 1e308 worked.

Definition emptyWorld : World := {| localStorage := ∅; events := [] |}.

Definition response (ok : bool) (status : Z) (body : option JSON.value) :=
  {| ok := ok; status := status; body := body |}.

Definition envWith (network : FetchOutcome) (quotaLeft : bool) : Env :=
  {| now := 1700000000000; isoNow := "2023-11-14T22:13:20.000Z";
     storageAvailable := true; quotaLeft := quotaLeft;
     network := network |}.

(** The server answers 200 with an empty body. *)
Definition okWithoutJson : Env :=
  envWith (Resolved (response true 200 None)) true.

(** The server answers 200 with a JSON acknowledgement. *)
Definition okWithJson : Env :=
  envWith
    (Resolved
       (response true 200
          (Some (JSON.JObject [("success", JSON.JString "true")]))))
    true.

Definition serverError : Env :=
  envWith (Resolved (response false 500 None)) true.

Definition offline : Env := envWith NetworkError true.

Definition offlineQuotaExceeded : Env := envWith NetworkError false.

(** Ten earlier entries, the oldest last. *)
Definition tenEntries : list JSON.value :=
  (fun id : float => JSON.JObject [("id", JSON.JNumber id)])
    <$> [10; 9; 8; 7; 6; 5; 4; 3; 2; 1].

Definition worldWith (calcHistory : list JSON.value) : World :=
  {| localStorage :=
       {[ "carbonHistory" := JSON.Document (JSON.JArray calcHistory) ]};
     events := [] |}.
End Samples.

(** ** The methods that render the result *)

Module Display.
Import CarbonCalculator.
Local Open Scope string_scope.
Local Open Scope float_scope.

(** [switch (level)] compares with [===]. *)
Definition getEmissionIcon (level : string) : string :=
  if String.eqb level "low" then "leaf"
  else if String.eqb level "moderate" then "exclamation-triangle"
  else if String.eqb level "high" then "exclamation-circle"
  else if String.eqb level "very_high" then "fire"
  else "question-circle".

Definition getEmissionDescription (level : string) : string :=
  if String.eqb level "low" then
    "Your carbon footprint is below average. Keep up the good work!"
  else if String.eqb level "moderate" then
    "Your carbon footprint is about average. There are opportunities for improvement."
  else if String.eqb level "high" then
    "Your carbon footprint is above average. Consider making changes to reduce your impact."
  else if String.eqb level "very_high" then
    "Your carbon footprint is significantly above average. Immediate action is recommended."
  else "".

(** [String.prototype.toLowerCase] on the letters A to Z; every other byte
    is kept, which is what the method does on a string without cased
    characters outside ASCII. *)
Definition lowerAscii (c : Ascii.ascii) : Ascii.ascii :=
  let n := Ascii.N_of_ascii c in
  if (65 <=? n)%N && (n <=? 90)%N then Ascii.ascii_of_N (n + 32) else c.

Fixpoint toLowerCase (s : string) : string :=
  match s with
  | EmptyString => EmptyString
  | String c rest => String (lowerAscii c) (toLowerCase rest)
  end.

Definition getImpactColor (impact : string) : string :=
  let lowered := toLowerCase impact in
  if String.eqb lowered "high" then "danger"
  else if String.eqb lowered "medium" then "warning"
  else if String.eqb lowered "low" then "success"
  else "secondary".

(** The four levels from the lowest to the highest. *)
Definition levelRank (level : string) : nat :=
  if String.eqb level "low" then 0
  else if String.eqb level "moderate" then 1
  else if String.eqb level "high" then 2
  else 3.
End Display.

(** ** The chart *)

Module Chart.
Import CarbonCalculator.
Local Open Scope string_scope.
Local Open Scope float_scope.

(** A Chart.js chart as [updateChart] creates it (the tooltip callback and
    the layout options are left out), and whether [destroy()] was called on
    it. *)
Record Chart := {
  type : string;
  labels : list string;
  data : list float;
  backgroundColor : list string;
  borderColor : list string;
  borderWidth : float;
  destroyed : bool
}.

(** What [updateChart] acts on.  [charts] are the charts created so far and
    [chart] is [this.chart], the index of one of them or [None] for [null].
    [chartCanvas] tells whether the canvas exists; [chartPlaceholder] and
    [chartContainer] hold the [style.display] and the [style.height] of
    these two elements, [None] when the page has no such element. *)
Record View := {
  chartCanvas : bool;
  chartPlaceholder : option string;
  chartContainer : option string;
  chart : option nat;
  charts : list Chart
}.

Definition newChart (emissions : Emissions) : Chart :=
  {| type := "doughnut";
     labels := ["Transport"; "Electricity"; "Diet"; "Waste"];
     data := [transport emissions; electricity emissions; diet emissions;
              waste emissions];
     backgroundColor :=
       ["rgba(25, 118, 210, 0.8)"; "rgba(255, 152, 0, 0.8)";
        "rgba(46, 125, 50, 0.8)"; "rgba(97, 97, 97, 0.8)"];
     borderColor :=
       ["rgba(25, 118, 210, 1)"; "rgba(255, 152, 0, 1)";
        "rgba(46, 125, 50, 1)"; "rgba(97, 97, 97, 1)"];
     borderWidth := 1;
     destroyed := false |}.

(** [c.destroy()]. *)
Definition destroy (c : Chart) : Chart :=
  {| type := type c; labels := labels c; data := data c;
     backgroundColor := backgroundColor c; borderColor := borderColor c;
     borderWidth := borderWidth c; destroyed := true |}.

(** [if (element) element.style.property = value]. *)
Definition setStyle (value : string) (element : option string) : option string :=
  (fun _ => value) <$> element.

Definition showEmptyChart (v : View) : View :=
  {| chartCanvas := chartCanvas v;
     chartPlaceholder := setStyle "block" (chartPlaceholder v);
     chartContainer := chartContainer v;
     chart := chart v;
     charts := charts v |}.

Definition updateChart (emissions : Emissions) (v : View) : View :=
  if negb (chartCanvas v) then v
  else
    let chartPlaceholder := setStyle "none" (chartPlaceholder v) in
    let chartContainer := setStyle "300px" (chartContainer v) in
    let charts :=
      match chart v with
      | Some id => alter destroy id (charts v)
      | None => charts v
      end in
    if 0 <? total emissions then
      {| chartCanvas := chartCanvas v;
         chartPlaceholder := chartPlaceholder;
         chartContainer := chartContainer;
         chart := Some (length charts);
         charts := (charts ++ [newChart emissions])%list |}
    else
      showEmptyChart
        {| chartCanvas := chartCanvas v;
           chartPlaceholder := chartPlaceholder;
           chartContainer := chartContainer;
           chart := chart v;
           charts := charts |}.

(** A page on which [updateChart] has not run yet. *)
Definition freshView (canvas : bool) (placeholder container : option string) : View :=
  {| chartCanvas := canvas; chartPlaceholder := placeholder;
     chartContainer := container; chart := None; charts := [] |}.

(** [updateChart] called for one breakdown after the other. *)
Definition updateEach (all : list Emissions) (v : View) : View :=
  foldl (fun v emissions => updateChart emissions v) v all.

(** The charts of the page on which [destroy()] was not called. *)
Definition live (v : View) : list Chart :=
  filter (fun c => destroyed c = false) (charts v).

(** Every chart that is not destroyed is the one [this.chart] refers to. *)
Definition onlyCurrentIsLive (v : View) : Prop :=
  forall (id : nat) (c : Chart),
    charts v !! id = Some c -> destroyed c = false -> chart v = Some id.
End Chart.

(** ** Submitting the form *)

Module Submit.
Import CarbonCalculator Chart.
Local Open Scope string_scope.
Local Open Scope float_scope.

(** [this.form] when it exists: the entries that [formData.entries()]
    yields, in their order (names may repeat; a form without file inputs),
    and the same entries as [calculateEmissions] reads them. *)
Record Form := {
  entries : list (string * string);
  fields : FormEntries
}.

(** The object [data] after the loop [data[key] = value] over the
    entries (field names other than ["__proto__"], which names no own
    property). *)
Definition formDataObject (entries : list (string * string)) : gmap string string :=
  foldl (fun data entry => <[fst entry := snd entry]> data) ∅ entries.

(** An object of strings as a JSON document.  The members are listed in the
    order of the map, not in the order in which the browser enumerates
    them. *)
Definition objectOfStrings (data : gmap string string) : JSON.value :=
  JSON.JObject
    ((fun member => (fst member, JSON.JString (snd member)))
       <$> map_to_list data).

(** [saveFormData]: the write is not guarded by a [try]. *)
Definition saveFormData (form : option Form) : M unit :=
  match form with
  | None => ret tt
  | Some f =>
      setItem "carbonCalculatorData"
        (JSON.stringify (objectOfStrings (formDataObject (entries f))))
  end.

(** The methods that only write to the page, as [handleSubmit] calls them;
    what each one renders is not modelled. *)
Inductive Call :=
| PreventDefault
| ShowLoading
| DisplayResults (emissions : Emissions)
| DisplaySuggestions (suggestions : list Suggestion)
| ScrollIntoView.

Record Page := {
  world : World;
  view : View;
  calls : list Call
}.

(** Statements over the whole page. *)
Definition P (A : Type) : Type := Env -> Page -> Page * option A.

#[local] Instance P_ret : MRet P := fun A a _ p => (p, Some a).
#[local] Instance P_bind : MBind P :=
  fun A B k m env p =>
    match m env p with
    | (p', Some a) => k a env p'
    | (p', None) => (p', None)
    end.

(** A statement of the calculator that acts on the store and the alerts. *)
Definition onWorld {A} (m : M A) : P A :=
  fun env p =>
    let (w, result) := m env (world p) in
    ({| world := w; view := view p; calls := calls p |}, result).

Definition onView (f : View -> View) : P unit :=
  fun _ p =>
    ({| world := world p; view := f (view p); calls := calls p |}, Some tt).

Definition call (c : Call) : P unit :=
  fun _ p =>
    ({| world := world p; view := view p; calls := (calls p ++ [c])%list |},
     Some tt).

Definition handleSubmit (form : option Form) : P unit :=
  call PreventDefault;;
  match form with
  | None => mret tt
  | Some f =>
      call ShowLoading;;
      let emissions := calculateEmissions (Some (fields f)) in
      onWorld (saveFormData form);;
      call (DisplayResults emissions);;
      let suggestions := generateSuggestions emissions in
      call (DisplaySuggestions suggestions);;
      onView (updateChart emissions);;
      onWorld (saveToServer (Some (fields f)) emissions);;
      call ScrollIntoView
  end.

End Submit.

(** ** Local saves one after the other *)

Module History.
Import CarbonCalculator.
Local Open Scope string_scope.

(** [saveToLocalStorage] run for each breakdown in turn, each under its own
    environment. *)
Fixpoint saveEach (saves : list (Env * Emissions)) (w : World) : World :=
  match saves with
  | [] => w
  | (env, emissions) :: rest =>
      saveEach rest (run (saveToLocalStorage emissions) env w)
  end.

(** The entry that a save puts in front of the history. *)
Definition entryOf (save : Env * Emissions) : JSON.value :=
  historyEntry (now (fst save)) (isoNow (fst save)) (snd save).

(** The store can be read and written. *)
Definition writable (env : Env) : Prop :=
  storageAvailable env = true /\ quotaLeft env = true.

(** What is stored under ['carbonHistory'] is a non-empty string that is no
    JSON text, or a JSON text that is no array. *)
Definition corruptHistory (w : World) : Prop :=
  (exists s, s <> ""
     /\ localStorage w !! "carbonHistory" = Some (JSON.Malformed s))
  \/ (exists doc, (forall items, doc <> JSON.JArray items)
        /\ localStorage w !! "carbonHistory" = Some (JSON.Document doc)).
End History.

(** ** Further samples *)

Module MoreSamples.
Import CarbonCalculator Samples Chart Submit History.
Local Open Scope string_scope.
Local Open Scope float_scope.


(** Two saves, the second one a second later. *)
Definition laterOffline : Env :=
  {| now := 1700000001000; isoNow := "2023-11-14T22:13:21.000Z";
     storageAvailable := true; quotaLeft := true; network := NetworkError |}.

Definition twoSaves : list (Env * Emissions) :=
  [ (offline, calculateEmissions (Some worked));
    (laterOffline, calculateEmissions (Some negativeCarKm)) ].

(** A store whose history was overwritten with text that is no JSON. *)
Definition corruptWorld : World :=
  {| localStorage := {[ "carbonHistory" := JSON.Malformed "[{" ]};
     events := [] |}.

(** The worked example as a form with a field that occurs twice. *)
Definition workedForm : Form :=
  {| entries :=
       [ ("car_type", "petrol"); ("car_km", "20"); ("car_km", "25");
         ("household_size", "2") ];
     fields := worked |}.

Definition emptyPage : Page :=
  {| world := emptyWorld; view := freshView true (Some "") (Some "");
     calls := [] |}.
End MoreSamples.

Import CarbonCalculator.
Import Samples.
Local Open Scope string_scope.
Local Open Scope float_scope.

(** * Properties *)

(** ** Facts about binary64 arithmetic and comparison

    Established through the specification of the primitive operations
    ([FloatAxioms]) on [spec_float]. *)

Module FloatFacts.

Lemma float_eq_of_spec (x y : float) : Prim2SF x = Prim2SF y -> x = y.
Proof.
  intros H. rewrite <- (SF2Prim_Prim2SF x), <- (SF2Prim_Prim2SF y).
  now rewrite H.
Qed.

Lemma mul_nan_r (x : float) : x * nan = nan.
Proof.
  apply float_eq_of_spec. rewrite mul_spec.
  change (Prim2SF nan) with S754_nan.
  now destruct (Prim2SF x) as [[]|[]| |[] ? ?].
Qed.

Lemma add_nan_l (x : float) : nan + x = nan.
Proof.
  apply float_eq_of_spec. rewrite add_spec.
  change (Prim2SF nan) with S754_nan.
  now destruct (Prim2SF x) as [[]|[]| |[] ? ?].
Qed.

Lemma div_nan_l (x : float) : nan / x = nan.
Proof.
  apply float_eq_of_spec. rewrite div_spec.
  change (Prim2SF nan) with S754_nan.
  now destruct (Prim2SF x) as [[]|[]| |[] ? ?].
Qed.

(** Case analysis on the comparisons of exponents and mantissas. *)
Ltac order_cases :=
  repeat match goal with
    | |- context [Pos.compare_cont Eq ?a ?b] =>
        change (Pos.compare_cont Eq a b) with (a ?= b)%positive
    | H : context [Pos.compare_cont Eq ?a ?b] |- _ =>
        change (Pos.compare_cont Eq a b) with (a ?= b)%positive in H
    end;
  repeat match goal with
    | |- context [(?a ?= ?b)%Z] => destruct (Z.compare_spec a b)
    | H : context [(?a ?= ?b)%Z] |- _ => destruct (Z.compare_spec a b)
    | |- context [(?a ?= ?b)%positive] => destruct (Pos.compare_spec a b)
    | H : context [(?a ?= ?b)%positive] |- _ =>
        destruct (Pos.compare_spec a b)
    end;
  simpl in *; try congruence; try lia.

Lemma SFleb_SFltb (a b : spec_float) : SFleb a b = true -> SFltb b a = false.
Proof.
  unfold SFleb, SFltb.
  destruct a as [[]|[]| |[] ma ea], b as [[]|[]| |[] mb eb]; simpl;
    try congruence; order_cases.
Qed.

Lemma SFltb_trans (a b c : spec_float) :
  SFltb a b = true -> SFltb b c = true -> SFltb a c = true.
Proof.
  unfold SFltb.
  destruct a as [[]|[]| |[] ma ea], b as [[]|[]| |[] mb eb],
    c as [[]|[]| |[] mc ec]; simpl; try congruence; order_cases.
Qed.

(** [x <= y] excludes [y < x]. *)
Lemma leb_ltb (x y : float) : (x <=? y) = true -> (y <? x) = false.
Proof. rewrite leb_spec, ltb_spec. apply SFleb_SFltb. Qed.

Lemma ltb_trans (x y z : float) :
  (x <? y) = true -> (y <? z) = true -> (x <? z) = true.
Proof. rewrite !ltb_spec. apply SFltb_trans. Qed.

(** Below a threshold [b] means below every larger threshold [c]. *)
Lemma not_ltb_mono (x b c : float) :
  (b <? c) = true -> (x <? c) = false -> (x <? b) = false.
Proof.
  intros Hbc Hxc. destruct (x <? b) eqn:Hxb; [|reflexivity].
  now rewrite (ltb_trans x b c Hxb Hbc) in Hxc.
Qed.

(** A Number on either side of zero is truthy. *)
Lemma apart_from_zero_truthy (x : float) :
  (x <? 0) = true \/ (0 <? x) = true -> JS.truthy x = true.
Proof.
  unfold JS.truthy, is_nan. rewrite !ltb_spec, !FloatAxioms.eqb_spec.
  change (Prim2SF 0) with (S754_zero false).
  unfold SFltb, SFeqb.
  destruct (Prim2SF x) as [[]|[]| |[] m e]; simpl; intros [H|H];
    try congruence;
    change (Pos.compare_cont Eq m m) with (m ?= m)%positive;
    now rewrite Z.compare_refl, Pos.compare_refl.
Qed.
End FloatFacts.

(** ** The [||] defaults *)

Lemma or_truthy (x d : float) : JS.truthy x = true -> Some x ||ⱼ d = x.
Proof. unfold JS.or. now intros ->. Qed.

Lemma or_is_nan (x d : float) : is_nan x = true -> Some x ||ⱼ d = d.
Proof.
  unfold JS.or, JS.truthy. intros ->. now rewrite orb_true_r.
Qed.

Lemma or_zero (x d : float) : (x =? 0) = true -> Some x ||ⱼ d = d.
Proof. unfold JS.or, JS.truthy. now intros ->. Qed.

(** A parsed Number is used as entered: the constant read by the formulas
    is [===] to it. *)
Lemma or_zero_parsed (x : float) :
  is_nan x = false -> JS.strict_eq x (Some x ||ⱼ 0) = true.
Proof.
  unfold JS.or, JS.truthy, JS.strict_eq. intros Hnan.
  destruct (x =? 0) eqn:Hz; simpl; [exact Hz|].
  rewrite Hnan. simpl. unfold is_nan in Hnan.
  now apply negb_false_iff in Hnan.
Qed.

(** The default never leaves a falsy Number behind. *)
Lemma or_default_truthy (x d : float) :
  JS.truthy d = true -> JS.truthy (Some x ||ⱼ d) = true.
Proof. unfold JS.or. intros Hd. now destruct (JS.truthy x) eqn:Hx. Qed.

Lemma truthy_nonzero (x : float) :
  JS.truthy x = true -> (x =? 0) = false /\ is_nan x = false.
Proof.
  unfold JS.truthy. intros H. apply negb_true_iff, orb_false_iff in H.
  exact H.
Qed.

(** ** The category formulas *)

(** C1. For a form whose three selects carry recognised values and whose
    five numeric entries parse to Numbers, the constants read by the formulas
    are the parsed Numbers, and [calculateEmissions] returns for transport,
    electricity, diet and waste the values of the specification's formulas,
    electricity being divided by the effective household size.  The other
    three categories do not depend on the household size. *)
Theorem category_formulas
    (data : FormEntries)
    (m : Spec.TransportMode) (r : Spec.RenewableShare) (t : Spec.DietType) :
  car_type data = Some (Spec.modeName m) ->
  renewable_energy data = Some (Spec.shareName r) ->
  diet_type data = Some (Spec.dietName t) ->
  is_nan (car_km data) = false ->
  is_nan (public_transport_km data) = false ->
  is_nan (flights_hours data) = false ->
  is_nan (electricity_kwh data) = false ->
  is_nan (waste_kg data) = false ->
  let e := calculateEmissions (Some data) in
  (JS.strict_eq (car_km data) (carKm data) = true
   /\ JS.strict_eq (public_transport_km data) (publicTransportKm data) = true
   /\ JS.strict_eq (flights_hours data) (flightsHours data) = true
   /\ JS.strict_eq (electricity_kwh data) (electricityKwh data) = true
   /\ JS.strict_eq (waste_kg data) (wasteKg data) = true)
  /\ transport e
     = Spec.transport m (carKm data) (publicTransportKm data) (flightsHours data)
  /\ electricity e
     = Spec.electricity r (electricityKwh data) (householdSize e)
  /\ diet e = Spec.diet t
  /\ waste e = Spec.waste (wasteKg data)
  /\ forall n : float,
       let e' := calculateEmissions (Some (withHouseholdSize n data)) in
       transport e' = transport e /\ diet e' = diet e /\ waste e' = waste e.
Proof.
  intros Hmode Hshare Hdiet Hcar Hpublic Hflights Hkwh Hwaste e.
  split.
  { unfold carKm, publicTransportKm, flightsHours, electricityKwh, wasteKg.
    repeat split; now apply or_zero_parsed. }
  subst e. unfold calculateEmissions. cbn [transport electricity diet waste householdSize].
  unfold withHouseholdSize; cbn [car_type diet_type]. 
  rewrite Hmode, Hshare, Hdiet.
  repeat split; try (destruct m; reflexivity); try (destruct r; reflexivity);
    destruct t; reflexivity.
Qed.

(** C1, at the worked example of the specification. *)
Lemma category_formulas_worked :
  transport (calculateEmissions (Some worked)) = 124.8
  /\ electricity (calculateEmissions (Some worked)) = 600
  /\ diet (calculateEmissions (Some worked)) = 2000
  /\ waste (calculateEmissions (Some worked)) = 260.
Proof.
  pose proof (category_formulas worked Spec.Petrol Spec.NoRenewables
                Spec.MeatMedium eq_refl eq_refl eq_refl eq_refl eq_refl
                eq_refl eq_refl eq_refl) as (_ & Ht & He & Hd & Hw & _).
  rewrite Ht, He, Hd, Hw. repeat split; reflexivity.
Defined.

(** ** Defaults for missing, unparseable and unrecognised entries *)

(** A numeric entry that is missing or unparseable counts as [0]. *)
Lemma numeric_entries_default_to_zero (data : FormEntries) :
  (is_nan (car_km data) = true -> carKm data = 0)
  /\ (is_nan (public_transport_km data) = true -> publicTransportKm data = 0)
  /\ (is_nan (flights_hours data) = true -> flightsHours data = 0)
  /\ (is_nan (electricity_kwh data) = true -> electricityKwh data = 0)
  /\ (is_nan (waste_kg data) = true -> wasteKg data = 0).
Proof. repeat split; apply or_is_nan. Qed.

(** A diet that is no key of the table counts as [meat_medium]. *)
Lemma unrecognised_diet_is_meat_medium (dietType : option string) :
  JS.get emissionFactors.diet dietType = None ->
  calculateDietEmissions dietType = 2000.
Proof. unfold calculateDietEmissions. now intros ->. Qed.

(** A renewable share that is no key of the table has factor [1.0]. *)
Lemma unrecognised_share_has_factor_one
    (kwh householdSize : float) (renewableLevel : option string) :
  JS.get renewableFactors renewableLevel = None ->
  calculateElectricityEmissions kwh renewableLevel householdSize
  = (kwh * 12 * 0.5 * 1.0) / householdSize.
Proof. unfold calculateElectricityEmissions. now intros ->. Qed.

(** C2. The transport table is read without a default: for every form whose
    car type is no key of it, the factor is [undefined], so the transport
    value, the total and the per-capita value are NaN and the level is
    [very_high], whatever the other entries are. *)
Theorem unrecognised_car_type_gives_nan (data : FormEntries) :
  JS.get emissionFactors.transport (car_type data) = None ->
  let e := calculateEmissions (Some data) in
  transport e = nan
  /\ total e = nan
  /\ perCapita e = nan
  /\ level (emissionLevel e) = "very_high".
Proof.
  intros Hkey e.
  assert (Ht : transport e = nan).
  { subst e. cbn [calculateEmissions transport].
    unfold calculateTransportEmissions. rewrite Hkey.
    cbn [JS.to_number]. cbv zeta.
    now rewrite FloatFacts.mul_nan_r, !FloatFacts.add_nan_l. }
  assert (Htot : total e = nan).
  { subst e. cbn [calculateEmissions transport total] in *.
    now rewrite Ht, !FloatFacts.add_nan_l. }
  assert (Hpc : perCapita e = nan).
  { subst e. cbn [calculateEmissions total perCapita] in *.
    now rewrite Htot, FloatFacts.div_nan_l. }
  repeat split; try assumption.
  subst e. cbn [calculateEmissions perCapita emissionLevel] in *.
  now rewrite Hpc.
Qed.

(** C2, on the worked example with the car-type select left empty: the
    other three categories are the numbers of the worked example. *)
Lemma unrecognised_car_type_sample :
  (transport (calculateEmissions (Some noCarType)) = nan
   /\ total (calculateEmissions (Some noCarType)) = nan
   /\ perCapita (calculateEmissions (Some noCarType)) = nan
   /\ level (emissionLevel (calculateEmissions (Some noCarType))) = "very_high")
  /\ electricity (calculateEmissions (Some noCarType)) = 600
  /\ diet (calculateEmissions (Some noCarType)) = 2000
  /\ waste (calculateEmissions (Some noCarType)) = 260.
Proof.
  split.
  - exact (unrecognised_car_type_gives_nan noCarType eq_refl).
  - repeat split; reflexivity.
Defined.

(** ** Total and per-capita value *)

(** C3. For every form, present or not and whatever its entries, the total
    is the sum of the four category values as returned, added from left to
    right with nothing rounded or altered in between: the two are the same
    binary64 value, and they compare equal under [===] whenever the total is
    not NaN. *)
Theorem total_is_sum (form : option FormEntries) :
  let e := calculateEmissions form in
  total e = transport e + electricity e + diet e + waste e
  /\ (is_nan (total e) = false ->
      JS.strict_eq (total e)
        (transport e + electricity e + diet e + waste e) = true).
Proof.
  intros e.
  assert (Hsum : total e = transport e + electricity e + diet e + waste e).
  { subst e. destruct form as [data|]; reflexivity. }
  split; [exact Hsum|].
  rewrite <- Hsum. unfold JS.strict_eq, is_nan. intros Hnan.
  now apply negb_false_iff in Hnan.
Qed.

(** C4 as amended. For every form the per-capita value is the total divided
    by the effective household size, and this divisor is never zero and
    never NaN.  The effective household size is [1] when the form is absent
    and when the entry is missing, unparseable or zero; an entry that parses
    to a Number on either side of zero, negative ones included, is used
    unchanged. *)
Theorem per_capita_and_household_size (form : option FormEntries) :
  let e := calculateEmissions form in
  perCapita e = total e / householdSize e
  /\ (householdSize e =? 0) = false
  /\ is_nan (householdSize e) = false
  /\ (form = None -> householdSize e = 1)
  /\ forall data : FormEntries, form = Some data ->
       (is_nan (household_size data) = true -> householdSize e = 1)
       /\ ((household_size data =? 0) = true -> householdSize e = 1)
       /\ ((0 <? household_size data) = true ->
           householdSize e = household_size data)
       /\ ((household_size data <? 0) = true ->
           householdSize e = household_size data).
Proof.
  intros e. subst e. destruct form as [data|].
  - cbn [calculateEmissions perCapita total householdSize].
    split; [reflexivity|].
    destruct (truthy_nonzero (effectiveHouseholdSize data)) as [Hz Hn].
    { now apply or_default_truthy. }
    refine (conj Hz (conj Hn (conj _ _))); [discriminate|].
    intros d [= <-]. unfold effectiveHouseholdSize.
    refine (conj _ (conj _ (conj _ _))); intros H.
    + now apply or_is_nan.
    + now apply or_zero.
    + apply or_truthy, FloatFacts.apart_from_zero_truthy. now right.
    + apply or_truthy, FloatFacts.apart_from_zero_truthy. now left.
  - refine (conj eq_refl (conj eq_refl (conj eq_refl (conj _ _))));
      [reflexivity | discriminate].
Qed.

(** C4 as stated fails: a household size of [-3] is at most zero, yet it is
    not replaced by [1]; the effective household size is [-3], which is not
    positive, and the per-capita value is the total divided by [-3]. *)
Lemma negative_household_size_is_kept :
  (household_size negativeHousehold <=? 0) = true
  /\ householdSize (calculateEmissions (Some negativeHousehold)) = -3
  /\ (householdSize (calculateEmissions (Some negativeHousehold)) =? 1) = false
  /\ (0 <? householdSize (calculateEmissions (Some negativeHousehold))) = false
  /\ perCapita (calculateEmissions (Some negativeHousehold))
     = total (calculateEmissions (Some negativeHousehold)) / -3.
Proof. repeat split; reflexivity. Qed.

(** ** Classification *)

(** C5. [getEmissionLevel] maps a per-capita value below 2000 to [low],
    one in [2000, 5000) to [moderate], one in [5000, 10000) to [high] and
    one of at least 10000 to [very_high]; the four boundary values fall as
    the half-open intervals say, and the level that [calculateEmissions]
    returns is the level of its per-capita value. *)
Theorem classification_thresholds :
  (forall p, (p <? 2000) = true -> level (getEmissionLevel p) = "low")
  /\ (forall p, (2000 <=? p) = true -> (p <? 5000) = true ->
        level (getEmissionLevel p) = "moderate")
  /\ (forall p, (5000 <=? p) = true -> (p <? 10000) = true ->
        level (getEmissionLevel p) = "high")
  /\ (forall p, (10000 <=? p) = true ->
        level (getEmissionLevel p) = "very_high")
  /\ level (getEmissionLevel 1999.99) = "low"
  /\ level (getEmissionLevel 2000) = "moderate"
  /\ level (getEmissionLevel 5000) = "high"
  /\ level (getEmissionLevel 10000) = "very_high"
  /\ forall form : option FormEntries,
       emissionLevel (calculateEmissions form)
       = getEmissionLevel (perCapita (calculateEmissions form)).
Proof.
  repeat split; try reflexivity.
  - intros p H. unfold getEmissionLevel. now rewrite H.
  - intros p Hlo Hhi. unfold getEmissionLevel.
    now rewrite (FloatFacts.leb_ltb _ _ Hlo), Hhi.
  - intros p Hlo Hhi. unfold getEmissionLevel.
    pose proof (FloatFacts.leb_ltb _ _ Hlo) as H5.
    rewrite (FloatFacts.not_ltb_mono p 2000 5000 eq_refl H5), H5.
    now rewrite Hhi.
  - intros p Hlo. unfold getEmissionLevel.
    pose proof (FloatFacts.leb_ltb _ _ Hlo) as H10.
    pose proof (FloatFacts.not_ltb_mono p 5000 10000 eq_refl H10) as H5.
    rewrite (FloatFacts.not_ltb_mono p 2000 5000 eq_refl H5), H5.
    now rewrite H10.
  - intros [data|]; reflexivity.
Qed.

(** Whatever is below no threshold, NaN included, is [very_high]. *)
Lemma classification_otherwise (p : float) :
  (p <? 10000) = false -> level (getEmissionLevel p) = "very_high".
Proof.
  intros H10. unfold getEmissionLevel.
  pose proof (FloatFacts.not_ltb_mono p 5000 10000 eq_refl H10) as H5.
  now rewrite (FloatFacts.not_ltb_mono p 2000 5000 eq_refl H5), H5, H10.
Qed.

(** ** The worked example of the specification *)

Example worked_example :
  calculateEmissions (Some worked)
  = {| transport := 124.8; electricity := 600; diet := 2000; waste := 260;
       total := 2984.8; perCapita := 1492.4; householdSize := 2;
       emissionLevel :=
         {| level := "low"; label := "Low"; color := "success" |} |}.
Proof. reflexivity. Qed.

Example worked_example_suggestions :
  generateSuggestions (calculateEmissions (Some worked)) = [plantTrees].
Proof. reflexivity. Qed.

(** ** The local history *)

Ltac run_steps :=
  unfold run, saveToServer, saveToLocalStorage, try_catch, fetch,
    response_json, newFormData, showSuccessAlert, showErrorAlert, unshift,
    parse, JSON.or, JSON.emptyArray, setItem, getItem, emit, ask, throw,
    ret, mbind, mret, M_bind, M_ret, bind, slice, after, saveRequest;
  cbn [fst snd localStorage events drop Nat.sub].

(** One local save either stores a new history and reports success, or
    stores nothing and reports the failure; it raises no other alert. *)
Lemma local_save_outcomes (env : Env) (w : World) (emissions : Emissions) :
  let w' := run (saveToLocalStorage emissions) env w in
  (exists item,
     localStorage w' = <["carbonHistory" := item]> (localStorage w)
     /\ events w'
        = (events w ++ [Stored "carbonHistory" item;
                        SuccessAlert "Calculation saved to your browser!"])%list)
  \/ (localStorage w' = localStorage w
      /\ events w'
         = (events w
            ++ [ErrorAlert "Failed to save calculation. Please try again."])%list).
Proof.
  run_steps.
  destruct (storageAvailable env); cbn; [|now right].
  destruct (localStorage w !! "carbonHistory") as [[doc|s]|]; cbn.
  - destruct doc; cbn; try now right.
    destruct (quotaLeft env); cbn; [left|now right].
    eexists. split; [reflexivity|]. now rewrite <- app_assoc.
  - destruct (negb (String.eqb s "")); cbn; [now right|].
    destruct (quotaLeft env); cbn; [left|now right].
    eexists. split; [reflexivity|]. now rewrite <- app_assoc.
  - destruct (quotaLeft env); cbn; [left|now right].
    eexists. split; [reflexivity|]. now rewrite <- app_assoc.
Qed.

(** A local save that cannot write leaves the store as it was. *)
Lemma failed_local_save_keeps_store
    (env : Env) (w : World) (emissions : Emissions) :
  storageAvailable env && quotaLeft env = false ->
  localStorage (run (saveToLocalStorage emissions) env w) = localStorage w.
Proof.
  intros Hfail. run_steps.
  destruct (storageAvailable env); cbn in *; [|reflexivity].
  rewrite Hfail.
  destruct (localStorage w !! "carbonHistory") as [[doc|s]|]; cbn;
    try reflexivity.
  - now destruct doc.
  - now destruct (negb (String.eqb s "")).
Qed.

(** What a local save that can write stores, for any history found. *)
Lemma local_save_stores
    (env : Env) (w : World) (emissions : Emissions) (h : list JSON.value) :
  storageAvailable env = true -> quotaLeft env = true -> holdsHistory w h ->
  localStorage (run (saveToLocalStorage emissions) env w) !! "carbonHistory"
  = Some (JSON.Document (JSON.JArray
            (take 10
               (JSON.serialize (historyEntry (now env) (isoNow env) emissions)
                  :: (JSON.serialize <$> h))))).
Proof.
  intros Havail Hquota [Hh | [[Hh ->] | [Hh ->]]]; run_steps;
    rewrite Havail, Hh; cbn [JSON.truthy JSON.parse andb negb String.eqb];
    rewrite Hquota; cbn [fst localStorage];
    rewrite lookup_insert_eq; unfold JSON.stringify; cbn [JSON.serialize];
    now rewrite fmap_take.
Qed.

(** C6. Whatever history a local save finds and whatever breakdown it
    saves, the history it stores has at most 10 entries and the new entry
    at index 0, followed by the earlier entries in their order; when 10
    entries were there the last (oldest) one is dropped and the other nine
    are kept, and with fewer than 10 all are kept. *)
Theorem history_capped_at_ten
    (env : Env) (w : World) (emissions : Emissions) (h : list JSON.value) :
  storageAvailable env = true -> quotaLeft env = true -> holdsHistory w h ->
  let entry :=
    JSON.serialize (historyEntry (now env) (isoNow env) emissions) in
  exists h' : list JSON.value,
    localStorage (run (saveToLocalStorage emissions) env w) !! "carbonHistory"
    = Some (JSON.Document (JSON.JArray h'))
    /\ (length h' <= 10)%nat
    /\ h' !! 0%nat = Some entry
    /\ ((length h < 10)%nat -> h' = entry :: (JSON.serialize <$> h))
    /\ (forall kept oldest, h = (kept ++ [oldest])%list -> length h = 10%nat ->
          h' = entry :: (JSON.serialize <$> kept)).
Proof.
  intros Havail Hquota Hh entry.
  eexists.
  split; [exact (local_save_stores env w emissions h Havail Hquota Hh)|].
  fold entry. split; [|split; [reflexivity|split]].
  - rewrite length_take. lia.
  - intros Hlen. apply take_ge. cbn. rewrite length_fmap. lia.
  - intros kept oldest -> Hlen. rewrite length_app in Hlen. cbn in Hlen.
    cbn [take]. f_equal. rewrite fmap_app.
    apply take_app_length'. rewrite length_fmap. lia.
Qed.

(** C6, on a history of ten entries: the eleventh save keeps ten, the new
    one first, and the entry with id 1, the oldest, is gone. *)
Lemma history_capped_at_ten_sample :
  exists h' : list JSON.value,
    localStorage
      (run (saveToLocalStorage (calculateEmissions (Some worked)))
           offline (worldWith tenEntries)) !! "carbonHistory"
    = Some (JSON.Document (JSON.JArray h'))
    /\ length h' = 10%nat
    /\ h' !! 0%nat
       = Some (JSON.serialize
                 (historyEntry (now offline) (isoNow offline)
                    (calculateEmissions (Some worked))))
    /\ h' !! 9%nat = tenEntries !! 8%nat.
Proof.
  destruct (history_capped_at_ten offline (worldWith tenEntries)
              (calculateEmissions (Some worked)) tenEntries
              eq_refl eq_refl (or_introl eq_refl))
    as (h' & Hstored & _ & Hfirst & _ & Hevict).
  exists h'. split; [exact Hstored|].
  split; [|split; [exact Hfirst|]];
    rewrite (Hevict (take 9 tenEntries) (JSON.JObject [("id", JSON.JNumber 1)])
               eq_refl eq_refl); reflexivity.
Defined.

(** ** Remote save with local fallback *)

(** [saveToLocalStorage] catches whatever it throws. *)
Lemma local_save_never_throws (env : Env) (w : World) (emissions : Emissions) :
  snd (saveToLocalStorage emissions env w) = Some tt.
Proof.
  run_steps.
  destruct (storageAvailable env); cbn; [|reflexivity].
  destruct (localStorage w !! "carbonHistory") as [[doc|s]|]; cbn.
  - destruct doc; cbn; try reflexivity. now destruct (quotaLeft env).
  - destruct (negb (String.eqb s "")); cbn; [reflexivity|].
    now destruct (quotaLeft env).
  - now destruct (quotaLeft env).
Qed.

Ltac server_steps :=
  unfold run, saveToServer, try_catch, fetch, response_json, newFormData,
    showSuccessAlert, emit, ask, throw, ret, mbind, mret, M_bind, M_ret, bind;
  cbn [fst snd localStorage events].

(** C7 as amended. With a form present, [saveToServer] sends exactly one
    request and never a second one.  When the response is OK and its body
    reads as JSON, it reports the save to the account and writes nothing
    locally.  In every other case (network error, a status that is not OK,
    or an OK response whose body does not read as JSON) what follows the
    request is exactly one local save: either the new history is stored and
    the save to the browser is reported, or nothing is stored and one error
    alert is raised, with nothing after it. *)
Theorem remote_save_with_local_fallback
    (env : Env) (data : FormEntries) (emissions : Emissions) (w : World) :
  let w' := run (saveToServer (Some data) emissions) env w in
  (exists rest,
     events w' = (events w ++ saveRequest emissions :: rest)%list
     /\ Forall (fun e => forall url body, e <> Fetched url body) rest)
  /\ if acknowledged env then
       localStorage w' = localStorage w
       /\ events w'
          = (events w
             ++ [saveRequest emissions;
                 SuccessAlert "Calculation saved to your account!"])%list
     else
       w' = run (saveToLocalStorage emissions) env
              (after w (saveRequest emissions))
       /\ ((exists item,
              localStorage w' = <["carbonHistory" := item]> (localStorage w)
              /\ events w'
                 = (events w
                    ++ [saveRequest emissions;
                        Stored "carbonHistory" item;
                        SuccessAlert
                          "Calculation saved to your browser!"])%list)
           \/ (localStorage w' = localStorage w
               /\ events w'
                  = (events w
                     ++ [saveRequest emissions;
                         ErrorAlert
                           "Failed to save calculation. Please try again."])%list)).
Proof.
  intros w'.
  assert (Hlocal :
    w' = run (saveToLocalStorage emissions) env (after w (saveRequest emissions)) ->
    (exists item,
       localStorage w' = <["carbonHistory" := item]> (localStorage w)
       /\ events w'
          = (events w
             ++ [saveRequest emissions; Stored "carbonHistory" item;
                 SuccessAlert "Calculation saved to your browser!"])%list)
    \/ (localStorage w' = localStorage w
        /\ events w'
           = (events w
              ++ [saveRequest emissions;
                  ErrorAlert
                    "Failed to save calculation. Please try again."])%list)).
  { intros ->.
    destruct (local_save_outcomes env (after w (saveRequest emissions)) emissions)
      as [(item & Hs & He) | [Hs He]]; [left; exists item|right];
      (split; [exact Hs|]); rewrite He; unfold after; cbn [events];
      now rewrite <- app_assoc. }
  assert (Hfallback :
    fst (match saveToLocalStorage emissions env
                 (after w (saveRequest emissions)) with
         | (w1, None) => saveToLocalStorage emissions env w1
         | done => done
         end)
    = run (saveToLocalStorage emissions) env (after w (saveRequest emissions))).
  { pose proof (local_save_never_throws env (after w (saveRequest emissions))
                  emissions) as Hsome.
    unfold run.
    destruct (saveToLocalStorage emissions env
                (after w (saveRequest emissions))) as [w1 [[]|]];
      [reflexivity|discriminate]. }
  assert (Hcases :
    if acknowledged env then
      localStorage w' = localStorage w
      /\ events w'
         = (events w
            ++ [saveRequest emissions;
                SuccessAlert "Calculation saved to your account!"])%list
    else
      w' = run (saveToLocalStorage emissions) env
             (after w (saveRequest emissions))
      /\ ((exists item,
             localStorage w' = <["carbonHistory" := item]> (localStorage w)
             /\ events w'
                = (events w
                   ++ [saveRequest emissions;
                       Stored "carbonHistory" item;
                       SuccessAlert
                         "Calculation saved to your browser!"])%list)
          \/ (localStorage w' = localStorage w
              /\ events w'
                 = (events w
                    ++ [saveRequest emissions;
                        ErrorAlert
                          "Failed to save calculation. Please try again."])%list))).
  { unfold acknowledged.
    destruct (network env) as [|[isOk st [doc|]]] eqn:Hnet; cbn [ok body andb].
    - assert (Hw : w' = run (saveToLocalStorage emissions) env
                          (after w (saveRequest emissions))).
      { subst w'; server_steps; now rewrite Hnet. }
      exact (conj Hw (Hlocal Hw)).
    - destruct isOk; cbn [andb].
      + rewrite bool_decide_eq_true_2 by (now exists doc).
        subst w'. server_steps. rewrite Hnet. cbn.
        split; [reflexivity|]. now rewrite <- app_assoc.
      + assert (Hw : w' = run (saveToLocalStorage emissions) env
                            (after w (saveRequest emissions))).
        { subst w'; server_steps; rewrite Hnet; cbn [ok]. exact Hfallback. }
        exact (conj Hw (Hlocal Hw)).
    - assert (Hw : w' = run (saveToLocalStorage emissions) env
                          (after w (saveRequest emissions))).
      { subst w'; server_steps; rewrite Hnet; cbn [ok body].
        destruct isOk; [reflexivity|exact Hfallback]. }
      rewrite bool_decide_eq_false_2, andb_false_r by (now intros [? [=]]).
      exact (conj Hw (Hlocal Hw)). }
  split; [|exact Hcases].
  destruct (acknowledged env).
  - destruct Hcases as [_ ->]. eexists. split; [reflexivity|].
    repeat constructor; discriminate.
  - destruct Hcases as [_ [(item & _ & ->) | [_ ->]]]; eexists;
      (split; [reflexivity|]); repeat constructor; discriminate.
Qed.

(** Without a form the request cannot be built: nothing is sent and the
    local save runs at once. *)
Lemma no_form_no_request (env : Env) (emissions : Emissions) (w : World) :
  run (saveToServer None emissions) env w
  = run (saveToLocalStorage emissions) env w.
Proof. reflexivity. Qed.

(** The four outcomes, on the worked example and an empty store. *)
Example saved_to_the_account :
  events (run (saveToServer (Some worked) (calculateEmissions (Some worked)))
              okWithJson emptyWorld)
  = [ saveRequest (calculateEmissions (Some worked));
      SuccessAlert "Calculation saved to your account!" ]
  /\ localStorage
       (run (saveToServer (Some worked) (calculateEmissions (Some worked)))
            okWithJson emptyWorld) = ∅.
Proof. split; reflexivity. Qed.

Example server_error_falls_back :
  events (run (saveToServer (Some worked) (calculateEmissions (Some worked)))
              serverError emptyWorld)
  = [ saveRequest (calculateEmissions (Some worked));
      Stored "carbonHistory"
        (JSON.stringify
           (JSON.JArray
              [historyEntry (now serverError) (isoNow serverError)
                 (calculateEmissions (Some worked))]));
      SuccessAlert "Calculation saved to your browser!" ].
Proof. reflexivity. Qed.

Example network_error_falls_back :
  events (run (saveToServer (Some worked) (calculateEmissions (Some worked)))
              offline emptyWorld)
  = [ saveRequest (calculateEmissions (Some worked));
      Stored "carbonHistory"
        (JSON.stringify
           (JSON.JArray
              [historyEntry (now offline) (isoNow offline)
                 (calculateEmissions (Some worked))]));
      SuccessAlert "Calculation saved to your browser!" ].
Proof. reflexivity. Qed.

Example local_failure_is_reported :
  events (run (saveToServer (Some worked) (calculateEmissions (Some worked)))
              offlineQuotaExceeded emptyWorld)
  = [ saveRequest (calculateEmissions (Some worked));
      ErrorAlert "Failed to save calculation. Please try again." ]
  /\ localStorage
       (run (saveToServer (Some worked) (calculateEmissions (Some worked)))
            offlineQuotaExceeded emptyWorld) = ∅.
Proof. split; reflexivity. Qed.

(** C7 as stated fails: the server answers 200 with an empty body, the
    response is OK, and yet the history is written to the local store and
    the alert reports a save to the browser, not to the account. *)
Lemma ok_response_without_json_is_saved_locally :
  network okWithoutJson = Resolved (response true 200 None)
  /\ ok (response true 200 None) = true
  /\ events
       (run (saveToServer (Some worked) (calculateEmissions (Some worked)))
            okWithoutJson emptyWorld)
     = [ saveRequest (calculateEmissions (Some worked));
         Stored "carbonHistory"
           (JSON.stringify
              (JSON.JArray
                 [historyEntry (now okWithoutJson) (isoNow okWithoutJson)
                    (calculateEmissions (Some worked))]));
         SuccessAlert "Calculation saved to your browser!" ]
  /\ localStorage
       (run (saveToServer (Some worked) (calculateEmissions (Some worked)))
            okWithoutJson emptyWorld) !! "carbonHistory"
     = Some (JSON.stringify
               (JSON.JArray
                  [historyEntry (now okWithoutJson) (isoNow okWithoutJson)
                     (calculateEmissions (Some worked))])).
Proof. repeat split; reflexivity. Qed.

(** ** Round trip through the stored history entry *)

Lemma serializeNumber_finite (x : float) :
  JS.finite x = true -> readsBackAs x (Some (JSON.serializeNumber x)).
Proof.
  intros Hfin. unfold JSON.serializeNumber, readsBackAs. rewrite Hfin.
  destruct (x =? 0) eqn:Hz.
  - exists 0. repeat split; [exact Hz|discriminate].
  - exists x. repeat split.
    unfold JS.finite in Hfin. apply negb_true_iff, orb_false_iff in Hfin.
    destruct Hfin as [Hnan _]. unfold is_nan in Hnan.
    now apply negb_false_iff in Hnan.
Qed.

(** NaN and the infinities are written as [null]. *)
Lemma serializeNumber_not_finite (x : float) :
  JS.finite x = false -> JSON.serializeNumber x = JSON.JNull.
Proof. unfold JSON.serializeNumber. now intros ->. Qed.

(** C8 as amended. For every breakdown whose four category values and
    total are finite Numbers, the entry written to the history reads back
    with those same category values and that same total (equal under [===],
    and the very same Number unless it is a negative zero, which reads back
    as [0]). *)
Theorem history_entry_round_trip
    (id : float) (date : string) (emissions : Emissions) :
  JS.finite (transport emissions) = true ->
  JS.finite (electricity emissions) = true ->
  JS.finite (diet emissions) = true ->
  JS.finite (waste emissions) = true ->
  JS.finite (total emissions) = true ->
  exists doc : JSON.value,
    readBack (historyEntry id date emissions) = Some doc
    /\ readsBackAs (transport emissions) (readCategory "transport" doc)
    /\ readsBackAs (electricity emissions) (readCategory "electricity" doc)
    /\ readsBackAs (diet emissions) (readCategory "diet" doc)
    /\ readsBackAs (waste emissions) (readCategory "waste" doc)
    /\ readsBackAs (total emissions) (readTotal doc).
Proof.
  intros Ht He Hd Hw Htot. eexists. split; [reflexivity|].
  repeat split; now apply serializeNumber_finite.
Qed.

(** C8, at the worked example: the five Numbers read back unchanged. *)
Lemma history_entry_round_trip_worked :
  exists doc : JSON.value,
    readBack (historyEntry 1700000000000 "2023-11-14T22:13:20.000Z"
                (calculateEmissions (Some worked))) = Some doc
    /\ readCategory "transport" doc = Some (JSON.JNumber 124.8)
    /\ readCategory "electricity" doc = Some (JSON.JNumber 600)
    /\ readCategory "diet" doc = Some (JSON.JNumber 2000)
    /\ readCategory "waste" doc = Some (JSON.JNumber 260)
    /\ readTotal doc = Some (JSON.JNumber 2984.8).
Proof.
  destruct (history_entry_round_trip 1700000000000 "2023-11-14T22:13:20.000Z"
              (calculateEmissions (Some worked))
              eq_refl eq_refl eq_refl eq_refl eq_refl)
    as (doc & Hdoc & _).
  exists doc. split; [exact Hdoc|].
  injection Hdoc as <-. repeat split; reflexivity.
Defined.

(** C8 as stated fails on breakdowns that [calculateEmissions] returns.
    With the car-type select left empty the transport value and the total
    are NaN, and both read back as [null]; with an electricity entry of
    [1e308] the electricity value and the total are infinite, and both read
    back as [null]. *)
Lemma nan_and_infinity_read_back_as_null :
  (transport (calculateEmissions (Some noCarType)) = nan
   /\ total (calculateEmissions (Some noCarType)) = nan
   /\ exists doc : JSON.value,
        readBack (historyEntry 1700000000000 "2023-11-14T22:13:20.000Z"
                    (calculateEmissions (Some noCarType))) = Some doc
        /\ readCategory "transport" doc = Some JSON.JNull
        /\ readTotal doc = Some JSON.JNull)
  /\ (electricity (calculateEmissions (Some hugeElectricity)) = infinity
      /\ total (calculateEmissions (Some hugeElectricity)) = infinity
      /\ exists doc : JSON.value,
           readBack (historyEntry 1700000000000 "2023-11-14T22:13:20.000Z"
                       (calculateEmissions (Some hugeElectricity))) = Some doc
           /\ readCategory "electricity" doc = Some JSON.JNull
           /\ readTotal doc = Some JSON.JNull).
Proof.
  split; (split; [reflexivity|split; [reflexivity|]]);
    eexists; repeat split; reflexivity.
Qed.

(** ** Suggestions *)

(** Case analysis on the three comparisons of [generateSuggestions]. *)
Ltac thresholds emissions :=
  destruct (2000 <? transport emissions), (1500 <? electricity emissions),
    (2000 <? diet emissions); cbn.

(** Every member of a list given by its elements. *)
Ltac members Hin :=
  repeat (apply elem_of_cons in Hin as [-> | Hin]; [|]);
  [..| now apply elem_of_nil in Hin].

(** A suggestion of the category of [template] is in the list iff the
    comparison that guards it succeeded. *)
Ltac category_iff template :=
  split;
  [ intros (s & Hin & Hcat); members Hin; first [reflexivity | discriminate]
  | intros Hcmp; first
      [ discriminate
      | exists template; split; [repeat constructor | reflexivity] ] ].

(** C9. [generateSuggestions] returns, in this order, the transport
    template when transport exceeds 2000, the electricity template when
    electricity exceeds 1500, the diet template when diet exceeds 2000, and
    then the tree-planting template, which is always there, exactly once and
    last.  Each category's suggestion is present iff its threshold is
    exceeded, nothing else is in the list, and the list depends on nothing
    but the three compared values. *)
Theorem suggestions_by_threshold (emissions : Emissions) :
  let suggestions := generateSuggestions emissions in
  suggestions
  = ((if 2000 <? transport emissions then [reduceCarUsage] else [])
     ++ (if 1500 <? electricity emissions then [switchToRenewable] else [])
     ++ (if 2000 <? diet emissions then [reduceMeat] else [])
     ++ [plantTrees])%list
  /\ ((exists s, s ∈ suggestions /\ category s = "Transport")
      <-> (2000 <? transport emissions) = true)
  /\ ((exists s, s ∈ suggestions /\ category s = "Electricity")
      <-> (1500 <? electricity emissions) = true)
  /\ ((exists s, s ∈ suggestions /\ category s = "Diet")
      <-> (2000 <? diet emissions) = true)
  /\ last suggestions = Some plantTrees
  /\ length (filter (fun s => category s = "General") suggestions) = 1%nat
  /\ (forall s, s ∈ suggestions ->
        s ∈ [reduceCarUsage; switchToRenewable; reduceMeat; plantTrees])
  /\ (forall other : Emissions,
        transport other = transport emissions ->
        electricity other = electricity emissions ->
        diet other = diet emissions ->
        generateSuggestions other = suggestions).
Proof.
  intros suggestions. subst suggestions. unfold generateSuggestions, push.
  split; [|split; [|split; [|split; [|split; [|split; [|split]]]]]].
  - thresholds emissions; reflexivity.
  - thresholds emissions; category_iff reduceCarUsage.
  - thresholds emissions; category_iff switchToRenewable.
  - thresholds emissions; category_iff reduceMeat.
  - thresholds emissions; reflexivity.
  - thresholds emissions; reflexivity.
  - intros s. thresholds emissions; intros Hin; members Hin;
      repeat constructor.
  - now intros other -> -> ->.
Qed.

(** ** Negative entries *)

(** C10. A numeric entry that parses to a negative Number is neither
    clamped nor replaced by the default: the formulas read it unchanged.
    With [car_km] entered as [-100] the transport value is negative, with
    [waste_kg] entered as [-5] the waste value is negative, and in both
    cases the total is strictly below the total of the same form with that
    entry set to [0]. *)
Theorem negative_entries_are_used_as_is :
  (forall data : FormEntries,
     ((car_km data <? 0) = true -> carKm data = car_km data)
     /\ ((public_transport_km data <? 0) = true ->
         publicTransportKm data = public_transport_km data)
     /\ ((flights_hours data <? 0) = true ->
         flightsHours data = flights_hours data)
     /\ ((electricity_kwh data <? 0) = true ->
         electricityKwh data = electricity_kwh data)
     /\ ((waste_kg data <? 0) = true -> wasteKg data = waste_kg data))
  /\ (transport (calculateEmissions (Some negativeCarKm)) = -624
      /\ (transport (calculateEmissions (Some negativeCarKm)) <? 0) = true
      /\ (total (calculateEmissions (Some negativeCarKm))
          <? total (calculateEmissions (Some (withCarKm 0 negativeCarKm))))
         = true)
  /\ (waste (calculateEmissions (Some negativeWaste)) = -130
      /\ (waste (calculateEmissions (Some negativeWaste)) <? 0) = true
      /\ (total (calculateEmissions (Some negativeWaste))
          <? total (calculateEmissions (Some (withWasteKg 0 negativeWaste))))
         = true).
Proof.
  split; [|repeat split; reflexivity].
  intros data.
  unfold carKm, publicTransportKm, flightsHours, electricityKwh, wasteKg.
  refine (conj _ (conj _ (conj _ (conj _ _)))); intros Hneg;
    apply or_truthy, FloatFacts.apart_from_zero_truthy; now left.
Qed.

(** * Further properties of the calculator *)

Import Display Chart Submit History MoreSamples.

(** ** More on the classification *)

Module OrderFacts.

Lemma SFleb_SFltb_trans (a b c : spec_float) :
  SFleb a b = true -> SFltb b c = true -> SFltb a c = true.
Proof.
  unfold SFleb, SFltb.
  destruct a as [[]|[]| |[] ma ea], b as [[]|[]| |[] mb eb],
    c as [[]|[]| |[] mc ec]; simpl; try congruence; FloatFacts.order_cases.
Qed.

(** At most a Number that is below a threshold means below that threshold. *)
Lemma leb_ltb_trans (x y z : float) :
  (x <=? y) = true -> (y <? z) = true -> (x <? z) = true.
Proof. rewrite leb_spec, !ltb_spec. apply SFleb_SFltb_trans. Qed.

(** NaN is below nothing. *)
Lemma nan_not_ltb (p c : float) : is_nan p = true -> (p <? c) = false.
Proof.
  unfold is_nan. rewrite ltb_spec, FloatAxioms.eqb_spec.
  unfold SFltb, SFeqb.
  destruct (Prim2SF p) as [[]|[]| |[] m e]; simpl; try discriminate;
    try reflexivity;
    change (Pos.compare_cont Eq m m) with (m ?= m)%positive;
    now rewrite Z.compare_refl, Pos.compare_refl.
Qed.

End OrderFacts.

(** X1. The classification is monotone: of two per-capita values, the
    larger one never gets the lower level. *)
Theorem classification_monotone (p q : float) :
  (p <=? q) = true ->
  (levelRank (level (getEmissionLevel p))
   <= levelRank (level (getEmissionLevel q)))%nat.
Proof.
  intros Hpq. unfold getEmissionLevel.
  destruct (q <? 2000) eqn:Hq2.
  { rewrite (OrderFacts.leb_ltb_trans _ _ _ Hpq Hq2). reflexivity. }
  destruct (q <? 5000) eqn:Hq5.
  { rewrite (OrderFacts.leb_ltb_trans _ _ _ Hpq Hq5).
    destruct (p <? 2000); cbn; lia. }
  destruct (q <? 10000) eqn:Hq10.
  { rewrite (OrderFacts.leb_ltb_trans _ _ _ Hpq Hq10).
    destruct (p <? 2000), (p <? 5000); cbn; lia. }
  destruct (p <? 2000), (p <? 5000), (p <? 10000); cbn; lia.
Qed.

(** X1, across the first threshold. *)
Lemma classification_monotone_sample :
  (levelRank (level (getEmissionLevel 1999.99))
   <= levelRank (level (getEmissionLevel 2000)))%nat.
Proof. exact (classification_monotone 1999.99 2000 eq_refl). Defined.

(** X2. Every Number gets exactly one of the four levels, and each level
    exactly on its interval: [low] iff below 2000, [moderate] iff not below
    2000 but below 5000, [high] iff not below 5000 but below 10000, and
    [very_high] iff not below 10000, which is where NaN falls. *)
Theorem classification_partition (p : float) :
  (level (getEmissionLevel p) = "low" <-> (p <? 2000) = true)
  /\ (level (getEmissionLevel p) = "moderate"
      <-> (p <? 2000) = false /\ (p <? 5000) = true)
  /\ (level (getEmissionLevel p) = "high"
      <-> (p <? 5000) = false /\ (p <? 10000) = true)
  /\ (level (getEmissionLevel p) = "very_high" <-> (p <? 10000) = false)
  /\ (is_nan p = true -> level (getEmissionLevel p) = "very_high").
Proof.
  assert (Hnan : is_nan p = true -> (p <? 10000) = false)
    by apply OrderFacts.nan_not_ltb.
  unfold getEmissionLevel.
  destruct (p <? 2000) eqn:H2, (p <? 5000) eqn:H5, (p <? 10000) eqn:H10;
    try (pose proof (FloatFacts.ltb_trans p 2000 5000 H2 eq_refl);
         congruence);
    try (pose proof (FloatFacts.ltb_trans p 5000 10000 H5 eq_refl);
         congruence);
    cbn; repeat split; try discriminate; try tauto;
    try (intros [? ?]; discriminate); intros H; specialize (Hnan H);
    discriminate.
Qed.

(** ** Icons, descriptions and badges *)

(** X3. For the level of every per-capita value, and so for every
    breakdown that [calculateEmissions] returns, [getEmissionIcon] yields
    one of its four icons and [getEmissionDescription] a text: neither
    falls to its default case. *)
Theorem level_has_icon_and_description :
  (forall p : float,
     getEmissionIcon (level (getEmissionLevel p))
       ∈ ["leaf"; "exclamation-triangle"; "exclamation-circle"; "fire"]
     /\ getEmissionIcon (level (getEmissionLevel p)) <> "question-circle"
     /\ getEmissionDescription (level (getEmissionLevel p)) <> "")
  /\ (forall form : option FormEntries,
        getEmissionIcon (level (emissionLevel (calculateEmissions form)))
        <> "question-circle"
        /\ getEmissionDescription
             (level (emissionLevel (calculateEmissions form))) <> "").
Proof.
  assert (Hlevel : forall p : float,
    getEmissionIcon (level (getEmissionLevel p))
      ∈ ["leaf"; "exclamation-triangle"; "exclamation-circle"; "fire"]
    /\ getEmissionIcon (level (getEmissionLevel p)) <> "question-circle"
    /\ getEmissionDescription (level (getEmissionLevel p)) <> "").
  { intros p. unfold getEmissionLevel.
    destruct (p <? 2000), (p <? 5000), (p <? 10000); cbn;
      (split; [repeat constructor|split; discriminate]). }
  split; [exact Hlevel|].
  intros [data|]; [|split; discriminate].
  cbn [calculateEmissions emissionLevel]. apply Hlevel.
Qed.

(** X4. Every suggestion that [generateSuggestions] returns gets one of
    the three badge colours from [getImpactColor], never the default
    [secondary]: [danger] for the transport and diet suggestions, [warning]
    for the electricity one and [success] for the general one. *)
Theorem suggestion_badges (emissions : Emissions) (s : Suggestion) :
  s ∈ generateSuggestions emissions ->
  getImpactColor (impact s) <> "secondary"
  /\ (category s = "Transport" -> getImpactColor (impact s) = "danger")
  /\ (category s = "Electricity" -> getImpactColor (impact s) = "warning")
  /\ (category s = "Diet" -> getImpactColor (impact s) = "danger")
  /\ (category s = "General" -> getImpactColor (impact s) = "success").
Proof.
  unfold generateSuggestions, push.
  thresholds emissions; intros Hin; members Hin;
    (split; [discriminate|]); repeat split; try reflexivity; discriminate.
Qed.

(** X4, for the suggestion that is always there. *)
Lemma suggestion_badges_sample :
  getImpactColor (impact plantTrees) = "success".
Proof.
  refine (proj2 (proj2 (proj2 (proj2
            (suggestion_badges (calculateEmissions (Some worked)) plantTrees
               _)))) eq_refl).
  apply list_elem_of_here.
Defined.

(** ** What the tables yield for any key *)








(** ** The history over several saves *)

Lemma serializeNumber_serialize (x : float) :
  JSON.serialize (JSON.serializeNumber x) = JSON.serializeNumber x.
Proof.
  unfold JSON.serializeNumber.
  destruct (JS.finite x) eqn:Hf; [|reflexivity].
  destruct (x =? 0) eqn:Hz; cbn; unfold JSON.serializeNumber.
  - reflexivity.
  - now rewrite Hf, Hz.
Qed.

(** What was written once is written again unchanged. *)
Lemma serialize_idempotent :
  forall v : JSON.value, JSON.serialize (JSON.serialize v) = JSON.serialize v.
Proof.
  fix IH 1. intros [|x|s|items|members]; cbn [JSON.serialize].
  - reflexivity.
  - apply serializeNumber_serialize.
  - reflexivity.
  - f_equal. induction items as [|v items IHitems]; cbn; [reflexivity|].
    now rewrite IH, IHitems.
  - f_equal. induction members as [|[k v] members IHmembers]; cbn;
      [reflexivity|].
    now rewrite IH, IHmembers.
Qed.

Lemma serialize_fmap_idempotent (h : list JSON.value) :
  JSON.serialize <$> (JSON.serialize <$> h) = JSON.serialize <$> h.
Proof.
  rewrite <- list_fmap_compose. apply list_fmap_ext.
  intros i v _. apply serialize_idempotent.
Qed.

Lemma take_cons_take {A} (n : nat) (x : A) (l : list A) :
  take n (x :: take n l) = take n (x :: l).
Proof.
  destruct n as [|n]; [reflexivity|]. cbn. f_equal.
  rewrite take_take. f_equal. lia.
Qed.

(** Saves on a store that holds the first ten of a written history. *)
Lemma successive_saves_from (saves : list (Env * Emissions)) :
  forall (w : World) (h0 : list JSON.value),
    Forall (fun save => writable (fst save)) saves ->
    localStorage w !! "carbonHistory"
    = Some (JSON.Document (JSON.JArray (take 10 (JSON.serialize <$> h0)))) ->
    localStorage (saveEach saves w) !! "carbonHistory"
    = Some (JSON.Document
              (JSON.JArray
                 (take 10
                    (JSON.serialize
                       <$> (rev (entryOf <$> saves) ++ h0)%list)))).
Proof.
  induction saves as [|[env emissions] saves IH]; intros w h0 Hw Hstored.
  - exact Hstored.
  - apply Forall_cons in Hw as [[Havail Hquota] Hw]. cbn [saveEach].
    cbn [fmap list_fmap rev]. rewrite <- app_assoc. cbn [app].
    apply (IH _ (entryOf (env, emissions) :: h0) Hw).
    rewrite (local_save_stores env w emissions _ Havail Hquota
               (or_introl Hstored)).
    rewrite fmap_take, serialize_fmap_idempotent.
    cbn [fmap list_fmap]. unfold entryOf; cbn [fst snd].
    now rewrite take_cons_take.
Qed.

(** X7. After one or more local saves that can write, whatever history
    was found, the store holds the new entries, the newest first, followed
    by the earlier history, cut after ten entries.  Entries written by
    earlier saves are stored again unchanged: as long as fewer than ten
    saves have followed it, the entry of the first save is still there,
    after those of the later saves. *)
Theorem successive_saves
    (first : Env * Emissions) (saves : list (Env * Emissions))
    (w : World) (h : list JSON.value) :
  Forall (fun save => writable (fst save)) (first :: saves) ->
  holdsHistory w h ->
  exists stored : list JSON.value,
    localStorage (saveEach (first :: saves) w) !! "carbonHistory"
    = Some (JSON.Document (JSON.JArray stored))
    /\ stored
       = take 10
           (JSON.serialize
              <$> (rev (entryOf <$> first :: saves) ++ h)%list)
    /\ (length stored <= 10)%nat
    /\ ((length saves < 10)%nat ->
        stored !! length saves = Some (JSON.serialize (entryOf first))).
Proof.
  intros Hw Hh. eexists. split; [|split; [reflexivity|split]].
  - destruct first as [env emissions].
    apply Forall_cons in Hw as [[Havail Hquota] Hw]. cbn [saveEach].
    cbn [fmap list_fmap rev]. rewrite <- app_assoc. cbn [app].
    apply (successive_saves_from saves _ (entryOf (env, emissions) :: h) Hw).
    now rewrite (local_save_stores env w emissions h Havail Hquota Hh).
  - rewrite length_take. lia.
  - intros Hfew. rewrite lookup_take_lt by exact Hfew.
    rewrite list_lookup_fmap. cbn [fmap list_fmap rev].
    rewrite <- app_assoc.
    rewrite lookup_app_r by (rewrite length_rev, length_fmap; lia).
    rewrite length_rev, length_fmap, Nat.sub_diag. reflexivity.
Qed.

(** X7, for two saves on a history of ten: the two new entries come
    first, the later one at index 0, and eight earlier ones remain. *)
Lemma successive_saves_sample :
  exists stored : list JSON.value,
    localStorage (saveEach twoSaves (worldWith tenEntries)) !! "carbonHistory"
    = Some (JSON.Document (JSON.JArray stored))
    /\ length stored = 10%nat
    /\ stored !! 1%nat
       = Some (JSON.serialize
                 (entryOf (offline, calculateEmissions (Some worked))))
    /\ stored !! 9%nat = tenEntries !! 7%nat.
Proof.
  destruct (successive_saves
              (offline, calculateEmissions (Some worked))
              [(laterOffline, calculateEmissions (Some negativeCarKm))]
              (worldWith tenEntries) tenEntries)
    as (stored & Hstored & -> & _ & Hfirst).
  - repeat constructor.
  - now left.
  - eexists. split; [exact Hstored|].
    split; [reflexivity|]. split; [|reflexivity].
    apply Hfirst. cbn. lia.
Defined.

(** A save on a corrupt history stores nothing and raises the error. *)
Lemma corrupt_save (env : Env) (w : World) (emissions : Emissions) :
  corruptHistory w ->
  run (saveToLocalStorage emissions) env w
  = after w (ErrorAlert "Failed to save calculation. Please try again.").
Proof.
  intros [(s & Hs & Hstored) | (doc & Hdoc & Hstored)]; run_steps;
    destruct (storageAvailable env); cbn; try reflexivity;
    rewrite Hstored; cbn.
  - destruct (String.eqb_spec s ""); [contradiction|]. reflexivity.
  - destruct doc; try reflexivity. now destruct (Hdoc items).
Qed.

(** X8. A history that is corrupt (a non-empty string that is no JSON, or
    a JSON text that is no array) is never repaired: whatever the
    environments, every later local save leaves the store exactly as it
    was and raises the error alert, so the history stays corrupt. *)
Theorem corrupt_history_is_never_repaired
    (saves : list (Env * Emissions)) (w : World) :
  corruptHistory w ->
  localStorage (saveEach saves w) = localStorage w
  /\ corruptHistory (saveEach saves w)
  /\ events (saveEach saves w)
     = (events w
        ++ replicate (length saves)
             (ErrorAlert "Failed to save calculation. Please try again."))%list.
Proof.
  revert w. induction saves as [|[env emissions] saves IH]; intros w Hw.
  - cbn. now rewrite app_nil_r.
  - cbn [saveEach]. rewrite (corrupt_save env w emissions Hw).
    destruct (IH (after w (ErrorAlert
                    "Failed to save calculation. Please try again.")))
      as (Hstore & Hcorrupt & Hevents); [exact Hw|].
    split; [exact Hstore|]. split; [exact Hcorrupt|].
    rewrite Hevents. cbn. now rewrite <- app_assoc.
Qed.

(** X8, on a store whose history was overwritten with ["[{"]. *)
Lemma corrupt_history_sample :
  localStorage (saveEach twoSaves corruptWorld) = localStorage corruptWorld
  /\ events (saveEach twoSaves corruptWorld)
     = [ ErrorAlert "Failed to save calculation. Please try again.";
         ErrorAlert "Failed to save calculation. Please try again." ].
Proof.
  destruct (corrupt_history_is_never_repaired twoSaves corruptWorld)
    as (Hstore & _ & Hevents).
  - left. exists "[{". split; [discriminate|reflexivity].
  - split; [exact Hstore|exact Hevents].
Defined.

(** ** What the two save methods never do *)

Lemma local_save_result (env : Env) (w : World) (emissions : Emissions) :
  saveToLocalStorage emissions env w
  = (run (saveToLocalStorage emissions) env w, Some tt).
Proof.
  unfold run. rewrite <- (local_save_never_throws env w emissions).
  now destruct (saveToLocalStorage emissions env w).
Qed.

Lemma local_save_store (env : Env) (w : World) (emissions : Emissions) :
  localStorage (run (saveToLocalStorage emissions) env w) = localStorage w
  \/ exists item,
       localStorage (run (saveToLocalStorage emissions) env w)
       = <["carbonHistory" := item]> (localStorage w).
Proof.
  destruct (local_save_outcomes env w emissions)
    as [(item & Hs & _) | [Hs _]]; [right; now exists item|now left].
Qed.

(** [saveToServer] returns, with the store as it was or with a new item
    under ['carbonHistory']. *)
Lemma server_save_result
    (form : option FormEntries) (env : Env) (w : World) (emissions : Emissions) :
  exists w' : World,
    saveToServer form emissions env w = (w', Some tt)
    /\ (localStorage w' = localStorage w
        \/ exists item,
             localStorage w' = <["carbonHistory" := item]> (localStorage w)).
Proof.
  destruct form as [data|].
  - unfold saveToServer, try_catch, fetch, response_json, newFormData,
      showSuccessAlert, emit, ask, throw, ret, mbind, mret, M_bind, M_ret, bind.
    cbn [fst snd localStorage events].
    destruct (network env) as [|[isOk st [doc|]]]; cbn [ok body].
    + rewrite local_save_result. eexists. split; [reflexivity|].
      apply (local_save_store env (after w (saveRequest emissions))).
    + destruct isOk.
      * eexists. split; [reflexivity|]. now left.
      * rewrite local_save_result. eexists. split; [reflexivity|].
        apply (local_save_store env (after w (saveRequest emissions))).
    + destruct isOk.
      * rewrite local_save_result. eexists. split; [reflexivity|].
        apply (local_save_store env (after w (saveRequest emissions))).
      * rewrite local_save_result. eexists. split; [reflexivity|].
        apply (local_save_store env (after w (saveRequest emissions))).
  - exists (run (saveToLocalStorage emissions) env w).
    split; [|apply local_save_store].
    unfold saveToServer, try_catch, newFormData, throw, mbind, M_bind, bind.
    apply local_save_result.
Qed.

(** X9. [saveToServer] never throws: with or without a form, whatever the
    network, the response and the store do, every exception is caught and
    the promise that [handleSubmit] awaits is fulfilled. *)
Theorem saveToServer_never_throws
    (form : option FormEntries) (env : Env) (w : World) (emissions : Emissions) :
  snd (saveToServer form emissions env w) = Some tt.
Proof.
  destruct (server_save_result form env w emissions) as (w' & -> & _).
  reflexivity.
Qed.

(** X10. Neither save method touches a key of the store other than
    ['carbonHistory']: what is stored under any other key, the form data
    under ['carbonCalculatorData'] included, is there unchanged after
    [saveToServer] and after [saveToLocalStorage]. *)
Theorem saves_touch_only_the_history
    (form : option FormEntries) (env : Env) (w : World) (emissions : Emissions)
    (key : string) :
  key <> "carbonHistory" ->
  localStorage (run (saveToServer form emissions) env w) !! key
  = localStorage w !! key
  /\ localStorage (run (saveToLocalStorage emissions) env w) !! key
     = localStorage w !! key.
Proof.
  intros Hkey. split.
  - unfold run.
    destruct (server_save_result form env w emissions)
      as (w' & -> & Hstore); cbn [fst].
    destruct Hstore as [-> | (item & ->)]; [reflexivity|].
    now apply lookup_insert_ne.
  - destruct (local_save_store env w emissions) as [-> | (item & ->)];
      [reflexivity|]. now apply lookup_insert_ne.
Qed.

(** X10, for the form data while the history falls back to the store. *)
Lemma saves_touch_only_the_history_sample :
  localStorage
    (run (saveToServer (Some worked) (calculateEmissions (Some worked)))
         offline (worldWith tenEntries)) !! "carbonCalculatorData"
  = None.
Proof.
  exact (proj1 (saves_touch_only_the_history (Some worked) offline
                  (worldWith tenEntries) (calculateEmissions (Some worked))
                  "carbonCalculatorData" ltac:(discriminate))).
Defined.

(** ** The chart *)

Lemma update_keeps_only_current_live (emissions : Emissions) (v : View) :
  onlyCurrentIsLive v -> onlyCurrentIsLive (updateChart emissions v).
Proof.
  intros Hinv. unfold updateChart.
  destruct (chartCanvas v); cbn [negb]; [|exact Hinv].
  assert (Hdead : forall id c,
    match chart v with
    | Some id => alter destroy id (charts v)
    | None => charts v
    end !! id = Some c -> destroyed c = true).
  { intros id c Hc. destruct (destroyed c) eqn:Hd; [reflexivity|].
    destruct (chart v) as [cur|] eqn:Hcur.
    - rewrite list_lookup_alter in Hc.
      destruct (decide (cur = id)) as [->|Hne].
      + apply fmap_Some in Hc as (c0 & _ & ->). discriminate.
      + specialize (Hinv id c Hc Hd). congruence.
    - specialize (Hinv id c Hc Hd). congruence. }
  destruct (0 <? total emissions).
  - intros id c Hc Hd. cbn [charts chart] in *.
    apply lookup_app_Some in Hc as [Hc | [Hlen Hc]].
    + rewrite (Hdead id c Hc) in Hd. discriminate.
    + apply list_lookup_singleton_Some in Hc as [Hid _].
      f_equal. lia.
  - intros id c Hc Hd. cbn [showEmptyChart charts chart] in *.
    rewrite (Hdead id c Hc) in Hd. discriminate.
Qed.

Lemma updates_keep_only_current_live (all : list Emissions) :
  forall v : View, onlyCurrentIsLive v -> onlyCurrentIsLive (updateEach all v).
Proof.
  induction all as [|emissions all IH]; intros v Hv; [exact Hv|].
  apply IH. now apply update_keeps_only_current_live.
Qed.

Lemma live_at_most_one (l : list Chart) :
  (forall i j ci cj,
     l !! i = Some ci -> l !! j = Some cj ->
     destroyed ci = false -> destroyed cj = false -> i = j) ->
  (length (filter (fun c => destroyed c = false) l) <= 1)%nat.
Proof.
  induction l as [|c l IH]; intros Huniq; [cbn; lia|].
  assert (Hrest : (length (filter (fun c => destroyed c = false) l) <= 1)%nat).
  { apply IH. intros i j ci cj Hi Hj Hdi Hdj.
    assert (S i = S j) by (now apply (Huniq (S i) (S j) ci cj)). lia. }
  rewrite filter_cons. destruct (decide (destroyed c = false)) as [Hc|Hc];
    [|exact Hrest].
  destruct (filter (fun c => destroyed c = false) l) as [|c' rest] eqn:Hf;
    [cbn; lia|].
  assert (Hin : c' ∈ filter (fun c => destroyed c = false) l)
    by (rewrite Hf; apply list_elem_of_here).
  apply list_elem_of_filter in Hin as [Hd Hin].
  apply list_elem_of_lookup in Hin as [i Hi].
  assert (0%nat = S i) by (now apply (Huniq 0%nat (S i) c c')).
  lia.
Qed.

(** X11. On a page where no chart was created yet, after any number of
    [updateChart] calls at most one chart is not destroyed, and it is the
    one [this.chart] refers to: the previous chart is always destroyed
    before a new one is created on the canvas. *)
Theorem at_most_one_live_chart
    (all : list Emissions) (canvas : bool) (placeholder container : option string) :
  let v := updateEach all (freshView canvas placeholder container) in
  (forall id c,
     charts v !! id = Some c -> destroyed c = false -> chart v = Some id)
  /\ (length (live v) <= 1)%nat.
Proof.
  intros v.
  assert (Hinv : onlyCurrentIsLive v).
  { apply updates_keep_only_current_live. intros id c Hc. discriminate. }
  split; [exact Hinv|].
  apply live_at_most_one. intros i j ci cj Hi Hj Hdi Hdj.
  pose proof (Hinv i ci Hi Hdi). pose proof (Hinv j cj Hj Hdj). congruence.
Qed.

Lemma destroyed_before_drawing (v : View) :
  onlyCurrentIsLive v ->
  Forall (fun c => destroyed c = true)
    match chart v with
    | Some id => alter destroy id (charts v)
    | None => charts v
    end.
Proof.
  intros Hinv. apply Forall_lookup. intros id c Hc.
  destruct (destroyed c) eqn:Hd; [reflexivity|].
  destruct (chart v) as [cur|] eqn:Hcur.
  - rewrite list_lookup_alter in Hc.
    destruct (decide (cur = id)) as [->|Hne].
    + apply fmap_Some in Hc as (c0 & _ & ->). discriminate.
    + specialize (Hinv id c Hc Hd). congruence.
  - specialize (Hinv id c Hc Hd). congruence.
Qed.

Lemma none_live (l : list Chart) :
  Forall (fun c => destroyed c = true) l ->
  filter (fun c => destroyed c = false) l = [].
Proof.
  induction 1 as [|c l Hc _ IH]; [reflexivity|].
  rewrite filter_cons. destruct (decide (destroyed c = false)); [congruence|].
  exact IH.
Qed.

Lemma updates_keep_elements (all : list Emissions) :
  forall v : View,
    chartCanvas (updateEach all v) = chartCanvas v
    /\ forall value,
         setStyle value (chartPlaceholder (updateEach all v))
         = setStyle value (chartPlaceholder v).
Proof.
  induction all as [|emissions all IH]; intros v; [now split|].
  change (updateEach (emissions :: all) v)
    with (updateEach all (updateChart emissions v)).
  destruct (IH (updateChart emissions v)) as [-> Hp]. split.
  - unfold updateChart. destruct (chartCanvas v) eqn:Hc; cbn [negb];
      [|exact Hc]. now destruct (0 <? total emissions).
  - intros value. rewrite Hp. unfold updateChart.
    destruct (chartCanvas v); cbn [negb]; [|reflexivity].
    destruct (0 <? total emissions); cbn; now destruct (chartPlaceholder v).
Qed.

(** X12. After any calls of [updateChart], what the page shows is decided
    by the last breakdown alone.  With a canvas and a total above zero, the
    only chart that is not destroyed is the doughnut of that breakdown,
    [this.chart] refers to it and the placeholder, if there is one, is
    hidden; with a total that is not above zero (zero, negative or NaN) no
    chart is left and the placeholder is shown.  Without a canvas nothing
    changes at all. *)
Theorem chart_shows_last_breakdown
    (earlier : list Emissions) (last : Emissions)
    (canvas : bool) (placeholder container : option string) :
  let v :=
    updateEach (earlier ++ [last]) (freshView canvas placeholder container) in
  if canvas then
    if 0 <? total last then
      live v = [newChart last]
      /\ (exists id, chart v = Some id /\ charts v !! id = Some (newChart last))
      /\ chartPlaceholder v = setStyle "none" placeholder
    else
      live v = [] /\ chartPlaceholder v = setStyle "block" placeholder
  else v = freshView false placeholder container.
Proof.
  intros v. subst v. unfold updateEach. rewrite foldl_app. cbn [foldl].
  fold (updateEach earlier (freshView canvas placeholder container)).
  set (v0 := updateEach earlier (freshView canvas placeholder container)).
  assert (Hinv : onlyCurrentIsLive v0).
  { apply updates_keep_only_current_live. intros id c Hc. discriminate. }
  destruct (updates_keep_elements earlier
              (freshView canvas placeholder container)) as [Hcanvas Hstyle].
  fold v0 in Hcanvas, Hstyle. cbn [freshView chartCanvas chartPlaceholder] in *.
  destruct canvas.
  - unfold updateChart. rewrite Hcanvas. cbn [negb].
    pose proof (destroyed_before_drawing v0 Hinv) as Hdead.
    destruct (0 <? total last).
    + unfold live. cbn [charts chart chartPlaceholder].
      rewrite filter_app, (none_live _ Hdead). split; [reflexivity|].
      split; [|apply Hstyle].
      eexists. split; [reflexivity|].
      rewrite lookup_app_r by reflexivity. now rewrite Nat.sub_diag.
    + unfold live, showEmptyChart. cbn [charts chartPlaceholder].
      split; [now apply none_live|].
      specialize (Hstyle "block"). unfold setStyle in *.
      now destruct (chartPlaceholder v0), placeholder.
  - clear Hinv Hstyle. subst v0.
    assert (Hsame : forall all v,
      chartCanvas v = false -> updateEach all v = v).
    { induction all as [|e all IH]; intros v Hv; [reflexivity|].
      change (updateEach (e :: all) v) with (updateEach all (updateChart e v)).
      unfold updateChart. rewrite Hv. cbn [negb]. now apply IH. }
    rewrite (Hsame earlier (freshView false placeholder container) eq_refl).
    reflexivity.
Qed.

(** ** The saved form data *)







(** ** Submitting the form *)

Ltac submit_steps :=
  unfold handleSubmit, call, onWorld, onView, mbind, mret, P_bind, P_ret;
  cbn [world view calls fst snd].

(** X14. When the store cannot be written (it is unavailable or its quota
    is used up), [handleSubmit] throws out of [saveFormData], right after
    [showLoading]: the results and the suggestions are not displayed, the
    chart is not updated, no request is sent, no alert is raised and
    nothing is stored. *)
Theorem submit_stops_when_the_store_cannot_be_written
    (f : Form) (env : Env) (p : Page) :
  storageAvailable env && quotaLeft env = false ->
  handleSubmit (Some f) env p
  = ({| world := world p; view := view p;
        calls := (calls p ++ [PreventDefault; ShowLoading])%list |}, None).
Proof.
  intros Hfail. submit_steps. unfold saveFormData, setItem. rewrite Hfail.
  now rewrite <- app_assoc.
Qed.

(** X14, with the quota used up. *)
Lemma submit_stops_sample :
  handleSubmit (Some workedForm) offlineQuotaExceeded emptyPage
  = ({| world := emptyWorld; view := view emptyPage;
        calls := [PreventDefault; ShowLoading] |}, None).
Proof.
  exact (submit_stops_when_the_store_cannot_be_written workedForm
           offlineQuotaExceeded emptyPage eq_refl).
Defined.

(** X15. When the store can be written, [handleSubmit] runs to its end
    without throwing, whatever the network does: it stores the form data,
    displays the results and the suggestions of the breakdown it computed,
    updates the chart with that breakdown, then runs [saveToServer] on it
    and scrolls to the results; the form data it stored is still in the
    store afterwards. *)
Theorem submit_with_a_writable_store (f : Form) (env : Env) (p : Page) :
  storageAvailable env = true -> quotaLeft env = true ->
  let emissions := calculateEmissions (Some (fields f)) in
  let formData :=
    JSON.stringify (objectOfStrings (formDataObject (entries f))) in
  let saved :=
    {| localStorage := <["carbonCalculatorData" := formData]>
                         (localStorage (world p));
       events := (events (world p)
                  ++ [Stored "carbonCalculatorData" formData])%list |} in
  handleSubmit (Some f) env p
  = ({| world := run (saveToServer (Some (fields f)) emissions) env saved;
        view := updateChart emissions (view p);
        calls := (calls p
                  ++ [PreventDefault; ShowLoading; DisplayResults emissions;
                      DisplaySuggestions (generateSuggestions emissions);
                      ScrollIntoView])%list |}, Some tt)
  /\ localStorage
       (run (saveToServer (Some (fields f)) emissions) env saved)
       !! "carbonCalculatorData" = Some formData.
Proof.
  intros Havail Hquota emissions formData saved.
  destruct (server_save_result (Some (fields f)) env saved emissions)
    as (w' & Hsave & Hstore).
  split.
  - submit_steps. unfold saveFormData, setItem. rewrite Havail, Hquota.
    cbn [andb world view calls].
    fold formData. fold saved. fold emissions.
    unfold run. rewrite Hsave. cbn [fst world view calls].
    now rewrite <- !app_assoc.
  - unfold run. rewrite Hsave. cbn [fst].
    destruct Hstore as [-> | (item & ->)].
    + apply lookup_insert_eq.
    + rewrite lookup_insert_ne by discriminate. apply lookup_insert_eq.
Qed.

(** X15, when the server acknowledges the save. *)
Lemma submit_with_a_writable_store_sample :
  snd (handleSubmit (Some workedForm) okWithJson emptyPage) = Some tt
  /\ calls (fst (handleSubmit (Some workedForm) okWithJson emptyPage))
     = [ PreventDefault; ShowLoading;
         DisplayResults (calculateEmissions (Some worked));
         DisplaySuggestions [plantTrees]; ScrollIntoView ]
  /\ live (view (fst (handleSubmit (Some workedForm) okWithJson emptyPage)))
     = [newChart (calculateEmissions (Some worked))].
Proof.
  destruct (submit_with_a_writable_store workedForm okWithJson emptyPage
              eq_refl eq_refl) as [Hsubmit _].
  rewrite Hsubmit. repeat split; reflexivity.
Defined.

(** Without a form [handleSubmit] returns at once. *)
Example submit_without_form (env : Env) (p : Page) :
  handleSubmit None env p
  = ({| world := world p; view := view p;
        calls := (calls p ++ [PreventDefault])%list |}, Some tt).
Proof. reflexivity. Qed.
